(** * merchant-form-filler-function: the HTTP handler of [main.py]

    A shallow embedding of [fill_pdf_form] and [add_signature_to_pdf]:
    the JSON values the handler receives, the Python builtins it applies to
    them, the configuration tables, the field mapper (the two loops that
    build [pdf_form_data]), the annotation text, the page assembly of the
    signature compositor and the handler's control flow over a scratch file
    system.  The libraries the handler delegates to (base64, fillpdf, PIL,
    reportlab, PyPDF2, the clock) enter through the [Runtime] record. *)

From Stdlib Require Import ZArith QArith Qcanon Qround SpecFloat Ascii String.
From stdpp Require Import gmap strings list fin_maps pretty.

Open Scope string_scope.
Set Warnings "-register-all".

(** ** JSON values as [request.get_json] returns them *)

(** [json.loads] yields [None], [bool], [int], [float], [str], [list] and
    [dict]; a [dict] has unique keys, so it is a finite map. Python iterates
    a dict in insertion order; the one loop over [form_fields.items()] gives
    the same result in any order ([text_loop_perm] below). *)
Inductive json : Type :=
  | JNull
  | JBool (b : bool)
  | JInt (z : Z)
  | JFloat (f : spec_float)
  | JStr (s : string)
  | JList (l : list json)
  | JDict (d : gmap string json).

Definition is_str (v : json) : bool :=
  match v with JStr _ => true | _ => false end.

(** Python truthiness, as [if signature_date or signature_hash] tests it. *)
Definition truthy (v : json) : bool :=
  match v with
  | JNull => false
  | JBool b => b
  | JInt z => negb (z =? 0)%Z
  | JFloat f => match f with S754_zero _ => false | _ => true end
  | JStr s => negb (String.eqb s "")
  | JList l => match l with [] => false | _ => true end
  | JDict d => negb (bool_decide (d = ∅))
  end.

(** ** String builtins *)

Definition lower_ascii (c : ascii) : ascii :=
  let n := nat_of_ascii c in
  if (65 <=? n)%nat && (n <=? 90)%nat then ascii_of_nat (n + 32) else c.

(** [str.lower]. Characters are the code points below 256; only the
    letters A-Z are mapped here. Python also lowers accented capitals,
    to characters that are no ASCII letter, so membership of the result
    in a list of ASCII words is the same. *)
Fixpoint lower (s : string) : string :=
  match s with
  | EmptyString => EmptyString
  | String c r => String (lower_ascii c) (lower r)
  end.

(** The slice [s[:n]] *)
Fixpoint slice_to (n : nat) (s : string) : string :=
  match n, s with
  | S k, String c r => String c (slice_to k r)
  | _, _ => EmptyString
  end.

(** [s.startswith(p)] *)
Fixpoint startswith (p s : string) : bool :=
  match p, s with
  | EmptyString, _ => true
  | String a p', String b s' => if Ascii.eqb a b then startswith p' s' else false
  | String _ _, EmptyString => false
  end.

(** [p in s] for two strings: [p] occurs in [s]. *)
Fixpoint str_contains (p s : string) : bool :=
  startswith p s ||
  match s with
  | EmptyString => false
  | String _ r => str_contains p r
  end.

(** [s.split(',')], with the piece being read kept in [cur]. *)
Fixpoint split_on (sep : ascii) (cur : string) (s : string) : list string :=
  match s with
  | EmptyString => [cur]
  | String c r =>
      if Ascii.eqb c sep then cur :: split_on sep "" r
      else split_on sep (cur +:+ String c "") r
  end.

Definition split_comma (s : string) : list string := split_on "," "" s.

(** ** Documents and the runtime *)

(** A page is an opaque renderable unit: a page of a source document, the
    canvas the signature is drawn on, or the result of [merge_page]. *)
Inductive page : Type :=
  | SourcePage (n : nat)
  | CanvasPage (x y width : Z) (height : Qc)
  | MergedPage (base over : page).

Record document : Type := Document {
  pages : list page;
  fields : gmap string json
}.

Inductive file : Type :=
  | FileBytes (b : list Byte.byte)
  | FilePdf (d : document).

Record datetime : Type := DateTime { year : N; month : N; day : N }.

(** What the handler obtains from outside [main.py]. [None] stands for a
    raised exception. *)
Record Runtime : Type := {
  (** [str] of a float, a list or a dict *)
  repr_ext : json → string;
  (** [datetime.now()] at line 221 and its two later formattings with
      ['%Y%m%d%H%M%S%f'] *)
  now : datetime;
  stamp_temp : string;
  stamp_out : string;
  (** the template file, when it exists *)
  template : option document;
  (** [fillpdfs.get_form_fields] *)
  get_form_fields : document → option (gmap string json);
  (** [fillpdfs.write_fillable_pdf] on a source document and a field map *)
  write_fillable_pdf : document → gmap string json → option document;
  (** [base64.b64decode] *)
  b64decode : string → option (list Byte.byte);
  (** [Image.open(...).size] after the conversion to RGBA: width, height *)
  image_open : list Byte.byte → option (Z * Z);
  (** whether [open(path, "wb")] and [open(path, "rb")] succeed *)
  can_write : string → bool;
  can_read : string → bool;
  (** rounding of an exact result to a float *)
  rnd : Qc → Qc
}.

Section Builtins.
Variable rt : Runtime.

(** [str(value)] *)
Definition py_str (v : json) : string :=
  match v with
  | JNull => "None"
  | JBool true => "True"
  | JBool false => "False"
  | JInt z => pretty z
  | JStr s => s
  | _ => repr_ext rt v
  end.

Definition pad2 (n : N) : string :=
  if (n <? 10)%N then "0" +:+ pretty n else pretty n.

(** [datetime.now().strftime('%Y-%m-%d')] *)
Definition strftime_ymd (d : datetime) : string :=
  pretty (year d) +:+ "-" +:+ pad2 (month d) +:+ "-" +:+ pad2 (day d).
End Builtins.

(** ** Configuration *)

Definition OUTPUT_PDF_FILENAME : string := "filled_form.pdf".

Record signature_position : Type := {
  sp_x : Z; sp_y : Z; sp_width : Z; sp_page : Z
}.

(** Not read by [add_signature_to_pdf], which takes the width from
    [SIGNATURE_POSITION]. *)
Definition SIGNATURE_WIDTH : Z := 200.

Definition SIGNATURE_POSITION : signature_position :=
  {| sp_x := 50; sp_y := 50; sp_width := 350; sp_page := 0 |}.

Definition CHECKBOX_FIELDS : list string :=
  [ "bankAccountOpen90Days"; "isBusinessForSale"; "filedBankruptcy";
    "hasTaxLiens"; "isUSCitizenPermanentResident"; "ownOrRent";
    "agreeToTerms" ].

(** A value of [FIELD_MAPPING]: one template field, or a yes/no pair. *)
Inductive target : Type :=
  | Text (t : string)
  | Pair (yes_field no_field : string).

Definition FIELD_MAPPING_items : list (string * target) :=
  [ ("legalBusinessName", Text "Text_1");
    ("dbaName", Text "Text_2");
    ("physicalAddress", Text "Text_3");
    ("city", Text "Text_4");
    ("state", Text "Text_5");
    ("zipCode", Text "Text_6");
    ("businessPhone", Text "Text_7");
    ("businessFax", Text "Text_8");
    ("businessEmail", Text "Text_9");
    ("estimatedMonthlySales", Text "Text_10");
    ("estimatedMonthlyCCSales", Text "Text_11");
    ("businessStartDate", Text "Text_12");
    ("bankingInstitution", Text "Text_13");
    ("timeRemainingOnLeaseMortgage", Text "Text_14");
    ("businessType", Text "Text_15");
    ("landlordAgentName", Text "Text_16");
    ("landlordAgentPhone", Text "Text_17");
    ("numberOfLocations", Text "Text_18");
    ("federalTaxId", Text "Text_19");
    ("amountRequested", Text "Text_20");
    ("intendedUseOfMoney", Text "Text_21");
    ("typeOfEntity", Text "Text_22");
    ("authorizedSignerName", Text "Text_23");
    ("authorizedSignerTitle", Text "Text_40");
    ("ownershipPercentage", Text "Text_25");
    ("score", Text "Text_26");
    ("principalOwnerName", Text "Text_27");
    ("ssn", Text "Text_28");
    ("dob", Text "Text_29");
    ("homeAddress", Text "Text_30");
    ("homeCity", Text "Text_31");
    ("homeState", Text "Text_32");
    ("homeZipCode", Text "Text_33");
    ("homePhone", Text "Text_34");
    ("mobilePhone", Text "Text_35");
    ("timeAtHomeAddress", Text "Text_36");
    ("timeAtPreviousHomeAddress", Text "Text_37");
    ("estimatedAnnualIncome", Text "Text_38");
    ("signatureDate", Text "Text_39");
    ("bankAccountOpen90Days", Pair "Checkbox_1" "Checkbox_2");
    ("isBusinessForSale", Pair "Checkbox_3" "Checkbox_4");
    ("filedBankruptcy", Pair "Checkbox_5" "Checkbox_6");
    ("hasTaxLiens", Pair "Checkbox_7" "Checkbox_8");
    ("isUSCitizenPermanentResident", Pair "Checkbox_9" "Checkbox_10");
    ("ownOrRent", Pair "Checkbox_11" "Checkbox_12");
    ("agreeToTerms", Pair "Checkbox_13" "Checkbox_14") ].

Definition FIELD_MAPPING : gmap string target :=
  Eval vm_compute in list_to_map FIELD_MAPPING_items.

Arguments FIELD_MAPPING : simpl never.

(** ** The field mapper: lines 255-302 of [fill_pdf_form] *)

Section Mapper.
Variable rt : Runtime.

Definition SIGNATURE_KEYS : list string :=
  [ "signatureImageBase64"; "signatureDataHash" ].

(** The test of line 260. *)
Definition skipped (field_name : string) : bool :=
  bool_decide (field_name ∈ SIGNATURE_KEYS)
  || bool_decide (field_name ∈ CHECKBOX_FIELDS).

(** Lines 268-278: the value stored for a mapped text field. *)
Definition truncate_value (field_name : string) (value : json) : json :=
  if bool_decide (field_name = "businessEmail")
     && (30 <? String.length (py_str rt value))%nat
  then JStr (slice_to 30 (py_str rt value))
  else if bool_decide (field_name = "businessType")
          && (35 <? String.length (py_str rt value))%nat
  then JStr (slice_to 35 (py_str rt value))
  else match value with
       | JStr s => if (40 <? String.length s)%nat
                   then JStr (slice_to 40 s) else value
       | _ => value
       end.

(** One iteration of the loop of lines 258-280. A list used as a key of
    [pdf_form_data] raises [TypeError]. *)
Definition text_step (pdf_form_data : gmap string json)
    (item : string * json) : option (gmap string json) :=
  let '(field_name, value) := item in
  if skipped field_name then Some pdf_form_data
  else match FIELD_MAPPING !! field_name with
       | None => Some pdf_form_data
       | Some (Text pdf_field_name) =>
           Some (<[pdf_field_name := truncate_value field_name value]>
                   pdf_form_data)
       | Some (Pair _ _) => None
       end.

Fixpoint text_loop (items : list (string * json))
    (pdf_form_data : gmap string json) : option (gmap string json) :=
  match items with
  | [] => Some pdf_form_data
  | item :: rest =>
      match text_step pdf_form_data item with
      | Some pdf_form_data' => text_loop rest pdf_form_data'
      | None => None
      end
  end.

(** Lines 289-293. *)
Definition is_yes (value : json) : bool :=
  match value with
  | JBool b => b
  | _ => bool_decide
           (lower (py_str rt value) ∈ ["yes"; "true"; "1"; "on"; "own"])
  end.

(** One iteration of the loop of lines 283-298. Unpacking a template
    field name (all are longer than two characters) into
    [yes_field, no_field] raises [ValueError]. *)
Definition checkbox_step (form_fields pdf_form_data : gmap string json)
    (checkbox_field : string) : option (gmap string json) :=
  match form_fields !! checkbox_field with
  | None => Some pdf_form_data
  | Some value =>
      match FIELD_MAPPING !! checkbox_field with
      | None => Some pdf_form_data
      | Some (Text _) => None
      | Some (Pair yes_field no_field) =>
          Some (<[no_field :=
                    JStr (if negb (is_yes value) then "Yes" else "Off")]>
                (<[yes_field :=
                     JStr (if is_yes value then "Yes" else "Off")]>
                 pdf_form_data))
      end
  end.

Fixpoint checkbox_loop (form_fields : gmap string json)
    (checkbox_fields : list string) (pdf_form_data : gmap string json)
    : option (gmap string json) :=
  match checkbox_fields with
  | [] => Some pdf_form_data
  | checkbox_field :: rest =>
      match checkbox_step form_fields pdf_form_data checkbox_field with
      | Some pdf_form_data' => checkbox_loop form_fields rest pdf_form_data'
      | None => None
      end
  end.

(** Lines 301-302. *)
Definition date_step (signature_date : json)
    (pdf_form_data : gmap string json) : option (gmap string json) :=
  match FIELD_MAPPING !! "signatureDate" with
  | None => Some pdf_form_data
  | Some (Text pdf_field_name) =>
      Some (<[pdf_field_name := signature_date]> pdf_form_data)
  | Some (Pair _ _) => None
  end.

(** [pdf_form_data] as it stands at line 304. *)
Definition field_mapper (form_fields : gmap string json)
    (signature_date : json) : option (gmap string json) :=
  match text_loop (map_to_list form_fields) ∅ with
  | None => None
  | Some texts =>
      match checkbox_loop form_fields CHECKBOX_FIELDS texts with
      | None => None
      | Some checked => date_step signature_date checked
      end
  end.

(** Line 221: [form_fields.get("signatureDate", <today>)]. *)
Definition resolve_date (form_fields : gmap string json) : json :=
  default (JStr (strftime_ymd (now rt))) (form_fields !! "signatureDate").

(** Line 220: [form_fields.get("signatureDataHash", "N/A")]. *)
Definition resolve_hash (form_fields : gmap string json) : json :=
  default (JStr "N/A") (form_fields !! "signatureDataHash").

(** The rendered field map of a request. *)
Definition rendered_field_map (form_fields : gmap string json)
    : option (gmap string json) :=
  field_mapper form_fields (resolve_date form_fields).
End Mapper.

(** Field [k] is copied by the text loop into template field [t]. *)
Definition writes (k t : string) : Prop :=
  skipped k = false ∧ FIELD_MAPPING !! k = Some (Text t).

#[global] Instance target_eq_dec : EqDecision target.
Proof. solve_decision. Defined.

#[global] Instance writes_dec k t : Decision (writes k t).
Proof. unfold writes. apply _. Defined.

(** The cap applied to a string value of field [k]. *)
Definition field_cap (k : string) : nat :=
  if bool_decide (k = "businessEmail") then 30
  else if bool_decide (k = "businessType") then 35
  else 40.

Definition targets_of (tg : target) : list string :=
  match tg with
  | Text t => [t]
  | Pair yes_field no_field => [yes_field; no_field]
  end.

Definition is_pair (tg : target) : bool :=
  match tg with Pair _ _ => true | Text _ => false end.

Arguments text_step : simpl never.
Arguments checkbox_step : simpl never.
Arguments date_step : simpl never.


(** ** The annotation of lines 314-330 *)

Section Annotation.
Variable rt : Runtime.

(** The text written to [Text_41]; [None] when the [if] of line 315 is not
    taken. *)
Definition annotation_text (signature_date signature_hash : json)
    : option string :=
  if truthy signature_date || truthy signature_hash then
    let text := "" in
    let text :=
      if truthy signature_date
      then text +:+ "Signed: " +:+ py_str rt signature_date
      else text in
    let text :=
      if truthy signature_hash
      then (if negb (String.eqb text "") then text +:+ " | " else text)
           +:+ "Hash: " +:+ py_str rt signature_hash
      else text in
    Some text
  else None.

(** [pdf_form_data] after line 324. *)
Definition annotate (pdf_form_data : gmap string json)
    (signature_date signature_hash : json) : gmap string json :=
  match annotation_text signature_date signature_hash with
  | Some text => <["Text_41" := JStr text]> pdf_form_data
  | None => pdf_form_data
  end.
End Annotation.

(** ** The signature compositor: [add_signature_to_pdf] *)

(** [[pages[i] for i in range(len(pages)) if keep(i)]], the shape of the
    loops of lines 179-181 and 184-185. *)
Definition pages_where (keep : nat → bool) (template_pages : list page)
    : list page :=
  flat_map
    (λ i, if keep i
          then match template_pages !! i with Some p => [p] | None => [] end
          else [])
    (seq 0 (length template_pages)).

(** Lines 172-185: the pages added to [output_pdf]. Indexing the overlay
    raises [IndexError] when it has no page. *)
Definition assemble_pages (page_idx : Z)
    (template_pages overlay_pages : list page) : option (list page) :=
  if (0 <=? page_idx)%Z && (page_idx <? Z.of_nat (length template_pages))%Z
  then
    match template_pages !! Z.to_nat page_idx, overlay_pages !! 0%nat with
    | Some page, Some overlay =>
        Some (MergedPage page overlay
              :: pages_where (λ i, negb (Z.of_nat i =? page_idx)%Z)
                   template_pages)
    | _, _ => None
    end
  else Some (pages_where (λ _, true) template_pages).

Section Compositor.
Variable rt : Runtime.

(** Float arithmetic: the exact result, rounded. *)
Definition of_int (n : Z) : Qc := rnd rt (Qc_of_Z n).
Definition fdiv (a b : Qc) : Qc := rnd rt (a / b)%Qc.
Definition fmul (a b : Qc) : Qc := rnd rt (a * b)%Qc.
Definition quarter : Qc := rnd rt (/ Qc_of_Z 4)%Qc.

(** Lines 151-158. Dividing by [float(img_width)] raises
    [ZeroDivisionError] when it is zero. *)
Definition overlay_height (img_width img_height : Z) : option Qc :=
  if bool_decide (of_int img_width = Qc_of_Z 0) then None
  else
    let aspect := fdiv (of_int img_height) (of_int img_width) in
    let width := sp_width SIGNATURE_POSITION in
    Some (fmul (fmul (of_int width) aspect) quarter).

Definition add_signature_to_pdf (fs : gmap string file)
    (input_pdf_path output_pdf_path signature_image_path : string)
    : option (gmap string file) :=
  match fs !! input_pdf_path, fs !! signature_image_path with
  | Some (FilePdf template_pdf), Some (FileBytes signature_bytes) =>
      '(img_width, img_height) ← image_open rt signature_bytes;
      height ← overlay_height img_width img_height;
      let overlay_pdf :=
        [CanvasPage (sp_x SIGNATURE_POSITION) (sp_y SIGNATURE_POSITION)
           (sp_width SIGNATURE_POSITION) height] in
      output_pdf ← assemble_pages (sp_page SIGNATURE_POSITION)
                     (pages template_pdf) overlay_pdf;
      if can_write rt output_pdf_path
      then Some (<[output_pdf_path :=
                     FilePdf (Document output_pdf (fields template_pdf))]> fs)
      else None
  | _, _ => None
  end.
End Compositor.

(** ** The request handler: [fill_pdf_form] *)

Record request : Type := Request {
  method : string;
  (** [request.get_json(silent=True)]: [None] when the body is not JSON *)
  get_json : option json
}.

Inductive body : Type :=
  | BodyText (message : string)
  | BodyPdf (pdf_bytes : document).

(** The headers of the 200 response are constant and left out. *)
Record response : Type := Response { resp_body : body; status : Z }.

(** ['body' in data]; [None] is the [TypeError] of a value that is not
    iterable. *)
Definition py_in_body (data : json) : option bool :=
  match data with
  | JDict d => Some (bool_decide (is_Some (d !! "body")))
  | JStr s => Some (str_contains "body" s)
  | JList l =>
      Some (existsb (λ x, match x with
                          | JStr s => String.eqb s "body"
                          | _ => false
                          end) l)
  | _ => None
  end.

(** [value.get(key, default)]; [None] is the [AttributeError] of a value
    that is not a dict. *)
Definition py_get (value : json) (key : string) (dflt : json) : option json :=
  match value with
  | JDict d => Some (default dflt (d !! key))
  | _ => None
  end.

(** The loops of lines 350-352 and 360-362. *)
Definition cleanup (temp_files : list string) (fs : gmap string file)
    : gmap string file :=
  foldl (λ fs temp_file,
           if bool_decide (is_Some (fs !! temp_file))
           then delete temp_file fs else fs)
        fs temp_files.

Section Handler.
Variable rt : Runtime.

(** Lines 228-230; [OUTPUT_PDF_FILENAME.replace('.pdf', ...)] puts the
    suffix between "filled_form" and ".pdf". *)
Definition temp_signature_path : string := "/tmp/signature.png".
Definition temp_filled_pdf_path : string :=
  "/tmp/filled_form" +:+ "_temp_" +:+ stamp_temp rt +:+ ".pdf".
Definition output_pdf_path : string :=
  "/tmp/filled_form" +:+ "_" +:+ stamp_out rt +:+ ".pdf".

Definition temp_files : list string :=
  [temp_signature_path; temp_filled_pdf_path; output_pdf_path].

(** Lines 365-371, reached with the temporary paths in [defined] bound. *)
Definition unexpected_error (defined : list string) (fs : gmap string file)
    : response * gmap string file :=
  (Response (BodyText "An unexpected error occurred") 500, cleanup defined fs).

(** Lines 246-250: [None] when the [try] block raises. *)
Definition save_signature (signature_base64 : string)
    (fs : gmap string file) : option (gmap string file) :=
  signature_base64_data ← split_comma signature_base64 !! 1%nat;
  signature_bytes ← b64decode rt signature_base64_data;
  if can_write rt temp_signature_path
  then Some (<[temp_signature_path := FileBytes signature_bytes]> fs)
  else None.

(** [fillpdfs.write_fillable_pdf(input, output, data)] on the scratch
    files. *)
Definition fill_file (source : option document) (output : string)
    (data : gmap string json) (fs : gmap string file)
    : option (gmap string file) :=
  input ← source;
  filled ← write_fillable_pdf rt input data;
  if can_write rt output then Some (<[output := FilePdf filled]> fs)
  else None.

Definition read_pdf (fs : gmap string file) (path : string)
    : option document :=
  match fs !! path with Some (FilePdf d) => Some d | _ => None end.

(** Lines 305-342. The boolean tells whether the [try] block ran to its
    end; the files written before an exception stay. *)
Definition fill_and_sign (pdf_form_data : gmap string json)
    (signature_date signature_hash : json) (fs : gmap string file)
    : bool * gmap string file :=
  match fill_file (template rt) temp_filled_pdf_path pdf_form_data fs with
  | None => (false, fs)
  | Some fs1 =>
      let annotated :=
        match annotation_text rt signature_date signature_hash with
        | Some text =>
            fill_file (read_pdf fs1 temp_filled_pdf_path)
              temp_filled_pdf_path {[ "Text_41" := JStr text ]} fs1
        | None => Some fs1
        end in
      match annotated with
      | None => (false, fs1)
      | Some fs2 =>
          match add_signature_to_pdf rt fs2 temp_filled_pdf_path
                  output_pdf_path temp_signature_path with
          | None => (false, fs2)
          | Some fs3 => (true, fs3)
          end
      end
  end.

(** Lines 227-363, once the signature has the required prefix. *)
Definition process (form_fields : gmap string json)
    (signature_base64 : string) (signature_hash signature_date : json)
    (fs : gmap string file) : response * gmap string file :=
  match template rt with
  | None => (Response (BodyText "Error: Template PDF not found.") 500, fs)
  | Some template_pdf =>
      match get_form_fields rt template_pdf with
      | None =>
          (Response (BodyText "Error: Could not read form fields from PDF")
             500, fs)
      | Some available_fields =>
          if bool_decide (available_fields = ∅) then
            (Response
               (BodyText "Error: The template PDF does not appear to be fillable (no form fields found).")
               500, fs)
          else
            match save_signature signature_base64 fs with
            | None =>
                (Response (BodyText "Error processing signature") 500, fs)
            | Some fs1 =>
                match field_mapper rt form_fields signature_date with
                | None => unexpected_error temp_files fs1
                | Some pdf_form_data =>
                    match fill_and_sign pdf_form_data signature_date
                            signature_hash fs1 with
                    | (false, fs2) =>
                        (Response (BodyText "Error filling PDF form") 500,
                         fs2)
                    | (true, fs2) =>
                        match (if can_read rt output_pdf_path
                               then read_pdf fs2 output_pdf_path
                               else None) with
                        | Some pdf_bytes =>
                            (Response (BodyPdf pdf_bytes) 200,
                             cleanup temp_files fs2)
                        | None =>
                            (Response (BodyText "Error reading final PDF")
                               500, cleanup temp_files fs2)
                        end
                    end
                end
            end
      end
  end.

(** Lines 211-225: the [try] block up to the signature check. *)
Definition handle_data (data : json) (fs : gmap string file)
    : response * gmap string file :=
  match py_in_body data with
  | None => unexpected_error [] fs
  | Some false =>
      (Response (BodyText "Invalid input format: Missing 'body' key.") 400,
       fs)
  | Some true =>
      match py_get data "body" (JDict ∅) with
      | Some (JDict form_fields) =>
          let signature_base64 :=
            default (JStr "") (form_fields !! "signatureImageBase64") in
          let signature_hash := resolve_hash form_fields in
          let signature_date := resolve_date rt form_fields in
          match signature_base64 with
          | JStr signature =>
              if negb (startswith "data:image/png;base64," signature) then
                (Response
                   (BodyText "Invalid signature format: Expected 'data:image/png;base64,...'")
                   400, fs)
              else process form_fields signature signature_hash
                     signature_date fs
          | _ => unexpected_error [] fs
          end
      | _ => unexpected_error [] fs
      end
  end.

Definition fill_pdf_form (req : request) (fs : gmap string file)
    : response * gmap string file :=
  if negb (String.eqb (method req) "POST") then
    (Response (BodyText "Only POST requests are accepted") 405, fs)
  else
    match get_json req with
    | Some (JList (data :: _)) => handle_data data fs
    | _ =>
        (Response
           (BodyText "Invalid input format: Expected a non-empty list.") 400,
         fs)
    end.
End Handler.

Arguments field_mapper : simpl never.

(** The text between the first comma of the signature and the next one:
    what line 247 hands to the decoder. *)
Definition first_segment (payload : string) : string :=
  default "" (split_comma payload !! 0%nat).

Fixpoint has_comma (s : string) : bool :=
  match s with
  | EmptyString => false
  | String c r => Ascii.eqb c "," || has_comma r
  end.

(** An integer that [float] represents exactly. *)
Definition exact (rt : Runtime) (n : Z) : Prop := of_int rt n = Qc_of_Z n.

(** ** A runtime and requests for the examples *)

Definition b64_digit (c : ascii) : option N :=
  let n := N_of_ascii c in
  if (65 <=? n)%N && (n <=? 90)%N then Some (n - 65)%N
  else if (97 <=? n)%N && (n <=? 122)%N then Some (n - 71)%N
  else if (48 <=? n)%N && (n <=? 57)%N then Some (n + 4)%N
  else if (n =? 43)%N then Some 62%N
  else if (n =? 47)%N then Some 63%N
  else None.

Definition byte_of_N (n : N) : Byte.byte :=
  default Byte.x00 (Byte.of_N (n mod 256)%N).

(** A strict base64 decoder for unpadded input: four digits give three
    bytes, anything else is rejected. *)
Fixpoint b64_strict (s : string) : option (list Byte.byte) :=
  match s with
  | EmptyString => Some []
  | String a (String b (String c (String d r))) =>
      va ← b64_digit a; vb ← b64_digit b;
      vc ← b64_digit c; vd ← b64_digit d;
      bytes ← b64_strict r;
      let n := (va * 262144 + vb * 4096 + vc * 64 + vd)%N in
      Some (byte_of_N (n / 65536) :: byte_of_N (n / 256) :: byte_of_N n
            :: bytes)
  | _ => None
  end.

(** An image reader that accepts what starts with the first byte of the
    PNG signature and reports a 400 by 100 raster. *)
Definition png_size (b : list Byte.byte) : option (Z * Z) :=
  match b with
  | Byte.x89 :: _ => Some (400, 100)%Z
  | _ => None
  end.

(** Rounding down to a multiple of 1/1024. *)
Definition round_1024 (q : Qc) : Qc :=
  Q2Qc (Qfloor (q * 1024) # 1024).

Definition rt_example : Runtime :=
  {| repr_ext := λ _, "<repr>";
     now := DateTime 2026 11 4;
     stamp_temp := "20261104120000000001";
     stamp_out := "20261104120000000002";
     template :=
       Some (Document [SourcePage 0; SourcePage 1] {[ "Text_1" := JStr "" ]});
     get_form_fields := λ d, Some (fields d);
     write_fillable_pdf := λ d m, Some (Document (pages d) (m ∪ fields d));
     b64decode := b64_strict;
     image_open := png_size;
     can_write := λ _, true;
     can_read := λ _, true;
     rnd := round_1024 |}.

Definition form_example : gmap string json :=
  {[ "legalBusinessName" := JStr "Acme Inc";
     "bankAccountOpen90Days" := JStr "yes";
     "ownOrRent" := JBool false;
     "numberOfLocations" := JInt 3;
     "favouriteColour" := JStr "blue";
     "signatureImageBase64" := JStr "data:image/png;base64,iVBORw0K";
     "signatureDataHash" := JStr "abc123" ]}.

Definition long_date : string := "2026-11-04, and forty one characters long".

Definition form_long_date : gmap string json :=
  {[ "signatureDate" := JStr long_date ]}.

Definition form_big_email : gmap string json :=
  {[ "businessEmail" := JInt (10 ^ 30) ]}.

Definition form_big_type : gmap string json :=
  {[ "businessType" := JInt (10 ^ 35) ]}.

Definition post (payload : json) : request :=
  {| method := "POST"; get_json := Some payload |}.

Definition wrap (form_fields : gmap string json) : json :=
  JList [JDict {[ "body" := JDict form_fields ]}].

Definition form_not_png : gmap string json :=
  {[ "signatureImageBase64" := JStr "data:image/png;base64,AAAA" ]}.

Definition form_undecodable : gmap string json :=
  {[ "signatureImageBase64" := JStr "data:image/png;base64,A" ]}.

(** ** Further notions used in the statements below *)

(** The characters of a printed integer. *)
Definition digit_or_dash (c : ascii) : bool :=
  let n := nat_of_ascii c in
  ((48 <=? n)%nat && (n <=? 57)%nat) || (n =? 45)%nat.

Fixpoint all_digit_or_dash (s : string) : bool :=
  match s with
  | EmptyString => true
  | String c r => digit_or_dash c && all_digit_or_dash r
  end.

(** A runtime in which the template is there and fillable, the form engine
    and the file system do not fail. *)
Definition healthy (rt : Runtime) : Prop :=
  ∃ template_pdf available_fields,
    template rt = Some template_pdf ∧
    get_form_fields rt template_pdf = Some available_fields ∧
    available_fields ≠ ∅ ∧
    (∀ d m, is_Some (write_fillable_pdf rt d m)) ∧
    (∀ p, can_write rt p = true) ∧
    (∀ p, can_read rt p = true).

(** The example runtime without its template file, and with a template
    that has no form field. *)
Definition rt_no_template : Runtime :=
  {| repr_ext := repr_ext rt_example;
     now := now rt_example;
     stamp_temp := stamp_temp rt_example;
     stamp_out := stamp_out rt_example;
     template := None;
     get_form_fields := get_form_fields rt_example;
     write_fillable_pdf := write_fillable_pdf rt_example;
     b64decode := b64decode rt_example;
     image_open := image_open rt_example;
     can_write := can_write rt_example;
     can_read := can_read rt_example;
     rnd := rnd rt_example |}.

Definition form_no_signature : gmap string json :=
  {[ "legalBusinessName" := JStr "Acme Inc" ]}.

Definition form_numeric_signature : gmap string json :=
  {[ "signatureImageBase64" := JInt 7 ]}.

(** Two scratch files as [add_signature_to_pdf] expects them. *)
Definition fs_two_pages : gmap string file :=
  {[ "in.pdf" := FilePdf (Document [SourcePage 0; SourcePage 1] ∅);
     "sig.png" := FileBytes [Byte.x89] ]}.

(** A file of another request next to a stale signature image. *)
Definition fs_stale : gmap string file :=
  {[ "/tmp/signature.png" := FileBytes [];
     "/tmp/other.txt" := FileBytes [Byte.x41] ]}.

(** The items of a body in the order a client sent them. *)
Definition items_in_order : list (string * json) :=
  [ ("state", JStr "TX"); ("city", JStr "Austin"); ("zipCode", JInt 73301) ].

Definition get_request : request := {| method := "GET"; get_json := None |}.
(** ** Facts about the configuration tables, checked by evaluation *)


Lemma FIELD_MAPPING_unfold :
  FIELD_MAPPING = list_to_map FIELD_MAPPING_items.
Proof. vm_cast_no_check (eq_refl FIELD_MAPPING). Qed.

Lemma FIELD_MAPPING_pair_iff_checkbox :
  map_Forall (λ k tg, is_pair tg = bool_decide (k ∈ CHECKBOX_FIELDS))
    FIELD_MAPPING.
Proof. apply (bool_decide_unpack _). vm_compute. exact I. Qed.

Lemma FIELD_MAPPING_targets_NoDup :
  map_Forall (λ _ tg, NoDup (targets_of tg)) FIELD_MAPPING.
Proof. apply (bool_decide_unpack _). vm_compute. exact I. Qed.

Lemma FIELD_MAPPING_targets_disjoint :
  map_Forall (λ k tg,
    map_Forall (λ k' tg',
      k ≠ k' → Forall (λ t, t ∉ targets_of tg') (targets_of tg))
      FIELD_MAPPING) FIELD_MAPPING.
Proof. apply (bool_decide_unpack _). vm_compute. exact I. Qed.

Lemma CHECKBOX_FIELDS_mapped :
  Forall (λ k, is_Some (FIELD_MAPPING !! k)) CHECKBOX_FIELDS.
Proof. apply (bool_decide_unpack _). vm_compute. exact I. Qed.

(** Two logical fields that share a template field are the same field. *)
Lemma target_inj k k' tg tg' t :
  FIELD_MAPPING !! k = Some tg → FIELD_MAPPING !! k' = Some tg' →
  t ∈ targets_of tg → t ∈ targets_of tg' → k = k'.
Proof.
  intros Hk Hk' Ht Ht'.
  destruct (decide (k = k')) as [|Hne]; [done|].
  pose proof (FIELD_MAPPING_targets_disjoint k tg Hk k' tg' Hk' Hne) as Hd.
  rewrite Forall_forall in Hd. destruct (Hd t Ht Ht').
Qed.

Lemma pair_is_checkbox k y n :
  FIELD_MAPPING !! k = Some (Pair y n) → k ∈ CHECKBOX_FIELDS.
Proof.
  intros Hk. pose proof (FIELD_MAPPING_pair_iff_checkbox k _ Hk) as H.
  simpl in H. symmetry in H. by apply bool_decide_eq_true in H.
Qed.

Lemma text_not_checkbox k t :
  FIELD_MAPPING !! k = Some (Text t) → k ∉ CHECKBOX_FIELDS.
Proof.
  intros Hk. pose proof (FIELD_MAPPING_pair_iff_checkbox k _ Hk) as H.
  simpl in H. symmetry in H. by apply bool_decide_eq_false in H.
Qed.

Lemma checkbox_is_pair k :
  k ∈ CHECKBOX_FIELDS → ∃ y n, FIELD_MAPPING !! k = Some (Pair y n).
Proof.
  intros Hk. pose proof CHECKBOX_FIELDS_mapped as HF.
  rewrite Forall_forall in HF. destruct (HF k Hk) as [[t|y n] Htg].
  - by destruct (text_not_checkbox k t Htg).
  - eauto.
Qed.

Lemma pair_distinct k y n : FIELD_MAPPING !! k = Some (Pair y n) → y ≠ n.
Proof.
  intros Hk. pose proof (FIELD_MAPPING_targets_NoDup k _ Hk) as H.
  simpl in H. apply NoDup_cons in H as [H _]. set_solver.
Qed.

(** ** The two loops of the field mapper *)

Section MapperFacts.
Variable rt : Runtime.
Implicit Types (form acc m : gmap string json).
Implicit Types (items : list (string * json)) (k t : string) (v : json).


Lemma writes_inj k k' t : writes k t → writes k' t → k = k'.
Proof.
  intros [_ Hk] [_ Hk'].
  apply (target_inj k k' (Text t) (Text t) t Hk Hk'); apply list_elem_of_here.
Qed.

Lemma skipped_false k :
  skipped k = false ↔ (k ∉ SIGNATURE_KEYS) ∧ (k ∉ CHECKBOX_FIELDS).
Proof.
  unfold skipped.
  rewrite orb_false_iff, !bool_decide_eq_false. done.
Qed.

Lemma text_step_total acc item : is_Some (text_step rt acc item).
Proof.
  destruct item as [k v]. unfold text_step.
  destruct (skipped k) eqn:Hs; [eauto|].
  destruct (FIELD_MAPPING !! k) as [[t|y n]|] eqn:Hk; eauto.
  apply pair_is_checkbox in Hk. apply skipped_false in Hs. tauto.
Qed.

Lemma text_loop_total items acc : is_Some (text_loop rt items acc).
Proof.
  revert acc. induction items as [|item rest IH]; intros acc; simpl.
  - eauto.
  - destruct (text_step_total acc item) as [acc' ->]. apply IH.
Qed.

Lemma text_step_written acc k v acc' t :
  text_step rt acc (k, v) = Some acc' → writes k t →
  acc' !! t = Some (truncate_value rt k v).
Proof.
  unfold text_step. intros Hstep [Hs Hk]. rewrite Hs, Hk in Hstep.
  injection Hstep as <-. apply lookup_insert_eq.
Qed.

Lemma text_step_frame acc k v acc' t :
  text_step rt acc (k, v) = Some acc' → ¬ writes k t →
  acc' !! t = acc !! t.
Proof.
  unfold text_step. intros Hstep Hw.
  destruct (skipped k) eqn:Hs; [by injection Hstep as <-|].
  destruct (FIELD_MAPPING !! k) as [[t'|y n]|] eqn:Hk;
    [|done|by injection Hstep as <-].
  injection Hstep as <-. apply lookup_insert_ne.
  intros ->. apply Hw. split; assumption.
Qed.

Lemma text_loop_frame items acc m t :
  text_loop rt items acc = Some m →
  (∀ k v, (k, v) ∈ items → ¬ writes k t) →
  m !! t = acc !! t.
Proof.
  revert acc. induction items as [|[k v] rest IH]; intros acc; simpl.
  - by intros [= <-].
  - destruct (text_step rt acc (k, v)) as [acc'|] eqn:Hstep; [|done].
    intros Hloop Hno. rewrite (IH _ Hloop).
    + eapply text_step_frame; [done|]. apply (Hno k v). by left.
    + intros k' v' Hin. apply (Hno k' v'). by right.
Qed.

Lemma text_loop_written items acc m k v t :
  NoDup items.*1 → text_loop rt items acc = Some m →
  (k, v) ∈ items → writes k t →
  m !! t = Some (truncate_value rt k v).
Proof.
  revert acc. induction items as [|[k0 v0] rest IH]; intros acc; simpl.
  - intros _ _ Hin. by apply elem_of_nil in Hin.
  - intros [Hfresh Hnd]%NoDup_cons.
    destruct (text_step rt acc (k0, v0)) as [acc'|] eqn:Hstep; [|done].
    intros Hloop Hin Hw.
    apply elem_of_cons in Hin as [[= -> ->]|Hrest]; [|by eapply IH].
    rewrite (text_loop_frame rest acc' m t Hloop).
    + by eapply text_step_written.
    + intros k' v' Hin' Hw'. apply Hfresh.
      rewrite (writes_inj _ _ _ Hw Hw'). apply list_elem_of_fmap.
      by exists (k', v').
Qed.

Lemma checkbox_loop_total form cbs acc :
  Forall (λ cb, cb ∈ CHECKBOX_FIELDS) cbs →
  is_Some (checkbox_loop rt form cbs acc).
Proof.
  intros Hall. revert acc.
  induction Hall as [|cb rest Hcb _ IH]; intros acc; simpl; [eauto|].
  unfold checkbox_step. destruct (form !! cb); [|apply IH].
  destruct (checkbox_is_pair cb Hcb) as (y & n & ->). apply IH.
Qed.

Lemma checkbox_step_frame form acc cb acc' t :
  checkbox_step rt form acc cb = Some acc' →
  (∀ tg, FIELD_MAPPING !! cb = Some tg → t ∉ targets_of tg) →
  acc' !! t = acc !! t.
Proof.
  unfold checkbox_step. intros Hstep Hno.
  destruct (form !! cb); [|by injection Hstep as <-].
  destruct (FIELD_MAPPING !! cb) as [[t'|y n]|];
    [done| |by injection Hstep as <-].
  injection Hstep as <-. specialize (Hno _ eq_refl). simpl in Hno.
  rewrite !lookup_insert_ne; set_solver.
Qed.

Lemma checkbox_loop_frame form cbs acc m t :
  checkbox_loop rt form cbs acc = Some m →
  (∀ cb tg, cb ∈ cbs → FIELD_MAPPING !! cb = Some tg → t ∉ targets_of tg) →
  m !! t = acc !! t.
Proof.
  revert acc. induction cbs as [|cb rest IH]; intros acc; simpl.
  - by intros [= <-].
  - destruct (checkbox_step rt form acc cb) as [acc'|] eqn:Hstep; [|done].
    intros Hloop Hno. rewrite (IH _ Hloop).
    + eapply checkbox_step_frame; [done|]. intros tg. apply Hno. left.
    + intros cb' tg Hin. apply Hno. by right.
Qed.

Lemma checkbox_loop_set form cbs acc m cb v y n :
  checkbox_loop rt form cbs acc = Some m →
  cb ∈ cbs → form !! cb = Some v →
  FIELD_MAPPING !! cb = Some (Pair y n) →
  m !! y = Some (JStr (if is_yes rt v then "Yes" else "Off")) ∧
  m !! n = Some (JStr (if is_yes rt v then "Off" else "Yes")).
Proof.
  intros Hloop Hin Hv Hpair. revert acc Hloop Hin.
  induction cbs as [|c rest IH]; intros acc; simpl.
  - intros _ Hin. by apply elem_of_nil in Hin.
  - destruct (checkbox_step rt form acc c) as [acc'|] eqn:Hstep; [|done].
    intros Hloop Hin.
    destruct (decide (cb ∈ rest)) as [Hrest|Hrest]; [by eapply IH|].
    apply elem_of_cons in Hin as [->|]; [|done].
    unfold checkbox_step in Hstep. rewrite Hv, Hpair in Hstep.
    injection Hstep as <-.
    assert (Hfr : ∀ t, t ∈ [y; n] →
              m !! t = <[n:=JStr (if negb (is_yes rt v) then "Yes" else "Off")]>
                (<[y:=JStr (if is_yes rt v then "Yes" else "Off")]> acc) !! t).
    { intros t Ht. apply (checkbox_loop_frame form rest _ m t Hloop).
      intros cb' tg Hin' Htg Ht'. apply Hrest.
      by rewrite (target_inj c cb' _ _ t Hpair Htg Ht Ht'). }
    pose proof (pair_distinct c y n Hpair) as Hyn.
    rewrite (Hfr y) by apply list_elem_of_here.
    rewrite (Hfr n) by apply list_elem_of_further, list_elem_of_here.
    rewrite lookup_insert_ne by done. rewrite !lookup_insert_eq.
    by destruct (is_yes rt v).
Qed.

Lemma checkbox_loop_ext form form' cbs acc :
  (∀ cb, cb ∈ cbs → form !! cb = form' !! cb) →
  checkbox_loop rt form cbs acc = checkbox_loop rt form' cbs acc.
Proof.
  revert acc. induction cbs as [|cb rest IH]; intros acc Heq; simpl; [done|].
  unfold checkbox_step. rewrite <- (Heq cb) by left.
  destruct (form !! cb) as [v|].
  - destruct (FIELD_MAPPING !! cb) as [[?|??]|]; [done| |];
      apply IH; intros cb' ?; apply Heq; by right.
  - apply IH. intros cb' ?. apply Heq. by right.
Qed.

Lemma signatureDate_mapping :
  FIELD_MAPPING !! "signatureDate" = Some (Text "Text_39").
Proof. vm_compute. reflexivity. Qed.

Lemma date_step_eq d acc : date_step d acc = Some (<["Text_39" := d]> acc).
Proof. unfold date_step. by rewrite signatureDate_mapping. Qed.

Lemma field_mapper_total form d : is_Some (field_mapper rt form d).
Proof.
  unfold field_mapper.
  destruct (text_loop_total (map_to_list form) ∅) as [texts ->].
  destruct (checkbox_loop_total form CHECKBOX_FIELDS texts) as [checked ->].
  - by apply Forall_forall.
  - rewrite date_step_eq. eauto.
Qed.


Lemma writes_not_checkbox k t cb tg :
  writes k t → cb ∈ CHECKBOX_FIELDS → FIELD_MAPPING !! cb = Some tg →
  t ∉ targets_of tg.
Proof.
  intros [Hs Hk] Hcb Htg Ht. apply skipped_false in Hs as [_ Hs].
  apply Hs.
  rewrite (target_inj k cb _ _ t Hk Htg); [done|apply list_elem_of_here|done].
Qed.

(** A mapped text field other than the signature date reaches the end of
    the mapper as the text loop wrote it. *)
Lemma field_mapper_text form d m k v t :
  field_mapper rt form d = Some m →
  form !! k = Some v → writes k t → k ≠ "signatureDate" →
  m !! t = Some (truncate_value rt k v).
Proof.
  unfold field_mapper. intros Hm Hv Hw Hne.
  destruct (text_loop rt (map_to_list form) ∅) as [texts|] eqn:Ht; [|done].
  destruct (checkbox_loop rt form CHECKBOX_FIELDS texts)
    as [checked|] eqn:Hc; [|done].
  rewrite date_step_eq in Hm. injection Hm as <-.
  rewrite lookup_insert_ne.
  - rewrite (checkbox_loop_frame form _ _ _ t Hc).
    + apply (text_loop_written _ _ _ _ _ _ (NoDup_fst_map_to_list form) Ht);
        [by apply elem_of_map_to_list|done].
    + intros cb tg. by apply (writes_not_checkbox k).
  - intros <-. apply Hne. destruct Hw as [_ Hk].
    apply (target_inj k "signatureDate" _ _ "Text_39" Hk signatureDate_mapping);
      apply list_elem_of_here.
Qed.

(** The last write of the mapper. *)
Lemma field_mapper_date form d m :
  field_mapper rt form d = Some m → m !! "Text_39" = Some d.
Proof.
  unfold field_mapper. intros Hm.
  destruct (text_loop rt (map_to_list form) ∅) as [texts|]; [|done].
  destruct (checkbox_loop rt form CHECKBOX_FIELDS texts) as [checked|];
    [|done].
  rewrite date_step_eq in Hm. injection Hm as <-. apply lookup_insert_eq.
Qed.

Lemma field_mapper_checkbox form d m cb v y n :
  field_mapper rt form d = Some m →
  cb ∈ CHECKBOX_FIELDS → form !! cb = Some v →
  FIELD_MAPPING !! cb = Some (Pair y n) →
  m !! y = Some (JStr (if is_yes rt v then "Yes" else "Off")) ∧
  m !! n = Some (JStr (if is_yes rt v then "Off" else "Yes")).
Proof.
  unfold field_mapper. intros Hm Hcb Hv Hpair.
  destruct (text_loop rt (map_to_list form) ∅) as [texts|]; [|done].
  destruct (checkbox_loop rt form CHECKBOX_FIELDS texts)
    as [checked|] eqn:Hc; [|done].
  rewrite date_step_eq in Hm. injection Hm as <-.
  assert (Hfr : ∀ t, t ∈ [y; n] → "Text_39" ≠ t).
  { intros t Ht <-.
    pose proof (target_inj cb "signatureDate" _ _ "Text_39"
                  Hpair signatureDate_mapping Ht (list_elem_of_here _ _)) as ->.
    by apply (text_not_checkbox _ _ signatureDate_mapping). }
  rewrite !lookup_insert_ne.
  - by apply (checkbox_loop_set form _ _ _ cb v y n Hc).
  - apply Hfr, list_elem_of_further, list_elem_of_here.
  - apply Hfr, list_elem_of_here.
Qed.

(** The text loop does not depend on a field that it does not copy. *)
Lemma text_loop_delete form k :
  (∀ t, ¬ writes k t) →
  text_loop rt (map_to_list (delete k form)) ∅
  = text_loop rt (map_to_list form) ∅.
Proof.
  intros Hk.
  destruct (text_loop_total (map_to_list (delete k form)) ∅) as [m1 H1].
  destruct (text_loop_total (map_to_list form) ∅) as [m2 H2].
  rewrite H1, H2. f_equal. apply map_eq. intros t.
  destruct (decide (Exists (λ kv, writes kv.1 t) (map_to_list form)))
    as [Hex|Hex].
  - apply Exists_exists in Hex as ([k' v'] & Hin & Hw). simpl in Hw.
    rewrite (text_loop_written _ _ _ k' v' t (NoDup_fst_map_to_list _) H2 Hin Hw).
    apply (text_loop_written _ _ _ k' v' t (NoDup_fst_map_to_list _) H1); [|done].
    apply elem_of_map_to_list. rewrite lookup_delete_ne.
    + by apply elem_of_map_to_list.
    + intros ->. by apply (Hk t).
  - rewrite (text_loop_frame _ _ _ t H2).
    + apply (text_loop_frame _ _ _ t H1). intros k' v' Hin Hw.
      apply Hex, Exists_exists. exists (k', v'). split; [|done].
      apply elem_of_map_to_list. apply elem_of_map_to_list in Hin.
      apply lookup_delete_Some in Hin. tauto.
    + intros k' v' Hin Hw. apply Hex, Exists_exists. by exists (k', v').
Qed.

(** The order in which the items of the input are visited is immaterial. *)
Lemma text_loop_perm items items' :
  NoDup items.*1 → items ≡ₚ items' →
  text_loop rt items' ∅ = text_loop rt items ∅.
Proof.
  intros Hnd Hperm.
  assert (Hnd' : NoDup items'.*1) by by rewrite <- Hperm.
  destruct (text_loop_total items' ∅) as [m1 H1].
  destruct (text_loop_total items ∅) as [m2 H2].
  rewrite H1, H2. f_equal. apply map_eq. intros t.
  destruct (decide (Exists (λ kv, writes kv.1 t) items)) as [Hex|Hex].
  - apply Exists_exists in Hex as ([k v] & Hin & Hw). simpl in Hw.
    rewrite (text_loop_written _ _ _ k v t Hnd H2 Hin Hw).
    apply (text_loop_written _ _ _ k v t Hnd' H1); [|done].
    by rewrite <- Hperm.
  - rewrite (text_loop_frame _ _ _ t H2).
    + apply (text_loop_frame _ _ _ t H1). intros k v Hin Hw.
      apply Hex, Exists_exists. exists (k, v). split; [|done].
      by rewrite Hperm.
    + intros k v Hin Hw. apply Hex, Exists_exists. by exists (k, v).
Qed.

Lemma field_mapper_delete form d k :
  FIELD_MAPPING !! k = None →
  field_mapper rt (delete k form) d = field_mapper rt form d.
Proof.
  intros Hk. unfold field_mapper. rewrite text_loop_delete.
  - destruct (text_loop rt (map_to_list form) ∅) as [texts|]; [|done].
    rewrite (checkbox_loop_ext (delete k form) form); [done|].
    intros cb Hcb. apply lookup_delete_ne. intros ->.
    destruct (checkbox_is_pair cb Hcb) as (y & n & Hp). congruence.
  - intros t [_ Hw]. congruence.
Qed.
End MapperFacts.

(** ** Slices *)

Lemma slice_to_length (n : nat) (s : string) :
  String.length (slice_to n s) = (n `min` String.length s)%nat.
Proof.
  revert s. induction n as [|n IH]; intros [|c r]; simpl; try reflexivity.
  by rewrite IH.
Qed.

Lemma slice_to_all (n : nat) (s : string) :
  (String.length s ≤ n)%nat → slice_to n s = s.
Proof.
  revert s. induction n as [|n IH]; intros [|c r]; simpl; try reflexivity.
  - lia.
  - intros Hle. f_equal. apply IH. lia.
Qed.

Lemma slice_to_prefix (n : nat) (s : string) : ∃ r, s = slice_to n s +:+ r.
Proof.
  revert s. induction n as [|n IH]; intros [|c r]; simpl; eauto.
  destruct (IH r) as [r' Hr']. exists r'.
  change (String c r = String c (slice_to n r +:+ r')). by f_equal.
Qed.


Arguments slice_to : simpl never.

Section Truncation.
Variable rt : Runtime.

Lemma truncate_value_str k s :
  truncate_value rt k (JStr s) = JStr (slice_to (field_cap k) s).
Proof.
  unfold truncate_value, field_cap. simpl.
  destruct (bool_decide (k = "businessEmail")); simpl.
  - destruct (30 <? String.length s)%nat eqn:H30; [done|].
    apply Nat.ltb_ge in H30.
    rewrite (slice_to_all 30 s H30).
    destruct (bool_decide (k = "businessType")); simpl.
    + destruct (35 <? String.length s)%nat eqn:H35; [|].
      * apply Nat.ltb_lt in H35. lia.
      * destruct (40 <? String.length s)%nat eqn:H40; [|done].
        apply Nat.ltb_lt in H40. lia.
    + destruct (40 <? String.length s)%nat eqn:H40; [|done].
      apply Nat.ltb_lt in H40. lia.
  - destruct (bool_decide (k = "businessType")); simpl.
    + destruct (35 <? String.length s)%nat eqn:H35; [done|].
      apply Nat.ltb_ge in H35. rewrite (slice_to_all 35 s H35).
      destruct (40 <? String.length s)%nat eqn:H40; [|done].
      apply Nat.ltb_lt in H40. lia.
    + destruct (40 <? String.length s)%nat eqn:H40; [done|].
      apply Nat.ltb_ge in H40. by rewrite (slice_to_all 40 s H40).
Qed.

Lemma truncate_value_other k v :
  is_str v = false →
  (k = "businessEmail" → (String.length (py_str rt v) ≤ 30)%nat) →
  (k = "businessType" → (String.length (py_str rt v) ≤ 35)%nat) →
  truncate_value rt k v = v.
Proof.
  intros Hv He Ht. unfold truncate_value.
  destruct (bool_decide_reflect (k = "businessEmail")) as [Hk|_]; simpl.
  - specialize (He Hk). apply Nat.ltb_ge in He. rewrite He.
    destruct (bool_decide_reflect (k = "businessType")) as [Hk'|_]; simpl.
    + specialize (Ht Hk'). apply Nat.ltb_ge in Ht. rewrite Ht.
      by destruct v.
    + by destruct v.
  - destruct (bool_decide_reflect (k = "businessType")) as [Hk'|_]; simpl.
    + specialize (Ht Hk'). apply Nat.ltb_ge in Ht. rewrite Ht.
      by destruct v.
    + by destruct v.
Qed.

Lemma is_yes_spec v :
  is_yes rt v = true ↔
  v = JBool true ∨ lower (py_str rt v) ∈ ["yes"; "true"; "1"; "on"; "own"].
Proof.
  destruct v as [|b|z|f|s|l|d]; unfold is_yes;
    try (rewrite bool_decide_eq_true; split; [by right|by intros [|]]).
  destruct b; split; try (by left); try done.
  intros [[=]|Hin]. simpl in Hin.
  repeat (apply elem_of_cons in Hin as [[=]|Hin]).
  by apply elem_of_nil in Hin.
Qed.

Lemma resolve_date_delete form k :
  k ≠ "signatureDate" →
  resolve_date rt (delete k form) = resolve_date rt form.
Proof. intros Hk. unfold resolve_date. by rewrite lookup_delete_ne. Qed.
End Truncation.

(** ** The rendered field map *)

Section RenderedFieldMap.
Variable rt : Runtime.
Implicit Types (form m : gmap string json) (k t : string) (v : json).

Lemma rendered_field_map_total form : is_Some (rendered_field_map rt form).
Proof. apply field_mapper_total. Qed.

(** C1. A checkbox field present in the input sets its yes-target to "Yes"
    and its no-target to "Off" when the value is the boolean true or its
    lower-cased string form is one of yes, true, 1, on, own; for every
    other value the no-target is "Yes" and the yes-target is "Off". *)
Theorem checkbox_pair_rendered form cb v :
  cb ∈ CHECKBOX_FIELDS → form !! cb = Some v →
  ∃ yes_field no_field m,
    FIELD_MAPPING !! cb = Some (Pair yes_field no_field) ∧
    yes_field ≠ no_field ∧
    rendered_field_map rt form = Some m ∧
    ((v = JBool true ∨
      lower (py_str rt v) ∈ ["yes"; "true"; "1"; "on"; "own"]) →
     m !! yes_field = Some (JStr "Yes") ∧ m !! no_field = Some (JStr "Off")) ∧
    (¬ (v = JBool true ∨
        lower (py_str rt v) ∈ ["yes"; "true"; "1"; "on"; "own"]) →
     m !! yes_field = Some (JStr "Off") ∧ m !! no_field = Some (JStr "Yes")).
Proof.
  intros Hcb Hv.
  destruct (checkbox_is_pair cb Hcb) as (y & n & Hpair).
  destruct (rendered_field_map_total form) as [m Hm].
  exists y, n, m. split; [done|]. split; [by eapply pair_distinct|].
  split; [done|].
  destruct (field_mapper_checkbox rt form _ m cb v y n Hm Hcb Hv Hpair)
    as [Hy Hn].
  rewrite <- is_yes_spec. destruct (is_yes rt v); split; intros Hyes.
  - done.
  - by destruct Hyes.
  - discriminate.
  - done.
Qed.

(** C2 (amended). A logical field other than signatureDate that is neither
    a checkbox field nor a signature-metadata key: when it is mapped and its
    value is a string, the rendered map holds under the mapped template
    field the prefix of the value of length min(cap, length), with cap 30
    for businessEmail, 35 for businessType and 40 otherwise, so a value
    within the cap is unchanged; when it is not mapped, the rendered map is
    the one of the input without the field. *)
Theorem text_field_rendered form k v :
  form !! k = Some v →
  k ∉ CHECKBOX_FIELDS → k ∉ SIGNATURE_KEYS → k ≠ "signatureDate" →
  ∃ m, rendered_field_map rt form = Some m ∧
    (∀ t s, FIELD_MAPPING !! k = Some (Text t) → v = JStr s →
       m !! t = Some (JStr (slice_to (field_cap k) s)) ∧
       (∃ r, s = slice_to (field_cap k) s +:+ r) ∧
       String.length (slice_to (field_cap k) s)
         = (field_cap k `min` String.length s)%nat ∧
       ((String.length s ≤ field_cap k)%nat → m !! t = Some (JStr s))) ∧
    (FIELD_MAPPING !! k = None →
       rendered_field_map rt (delete k form) = Some m).
Proof.
  intros Hv Hcb Hsig Hdate.
  destruct (rendered_field_map_total form) as [m Hm].
  exists m. split; [done|]. split.
  - intros t s Hk ->.
    assert (Hw : writes k t) by (split; [by apply skipped_false|done]).
    pose proof (field_mapper_text rt form _ m k _ t Hm Hv Hw Hdate) as Ht.
    rewrite truncate_value_str in Ht.
    split; [done|]. split; [apply slice_to_prefix|].
    split; [apply slice_to_length|].
    intros Hle. by rewrite Ht, slice_to_all.
  - intros Hk. unfold rendered_field_map.
    by rewrite resolve_date_delete, field_mapper_delete.
Qed.

Lemma truncate_value_non_string k v :
  is_str v = false →
  truncate_value rt k v
  = if bool_decide (k = "businessEmail")
       && (30 <? String.length (py_str rt v))%nat
    then JStr (slice_to 30 (py_str rt v))
    else if bool_decide (k = "businessType")
            && (35 <? String.length (py_str rt v))%nat
    then JStr (slice_to 35 (py_str rt v))
    else v.
Proof. intros Hv. unfold truncate_value. by destruct v. Qed.

(** C3 (amended). A mapped non-checkbox field whose value is not a string
    is written unchanged, with its type, unless the field is businessEmail
    (businessType) and the string form of the value has more than 30 (35)
    characters; it is then replaced by the string made of the first 30
    (35) characters of that string form. *)
Theorem non_string_rendered form k v t :
  form !! k = Some v → is_str v = false →
  k ∉ CHECKBOX_FIELDS → k ∉ SIGNATURE_KEYS →
  FIELD_MAPPING !! k = Some (Text t) →
  ∃ m, rendered_field_map rt form = Some m ∧
    (k ≠ "businessEmail" → k ≠ "businessType" → m !! t = Some v) ∧
    (∀ cap : nat,
       (k = "businessEmail" ∧ cap = 30%nat) ∨
       (k = "businessType" ∧ cap = 35%nat) →
       ((String.length (py_str rt v) ≤ cap)%nat → m !! t = Some v) ∧
       ((cap < String.length (py_str rt v))%nat →
          m !! t = Some (JStr (slice_to cap (py_str rt v))) ∧
          String.length (slice_to cap (py_str rt v)) = cap ∧
          ∃ r, py_str rt v = slice_to cap (py_str rt v) +:+ r)).
Proof.
  intros Hv Hstr Hcb Hsig Hk.
  destruct (rendered_field_map_total form) as [m Hm].
  exists m. split; [done|].
  destruct (decide (k = "signatureDate")) as [->|Hdate].
  { rewrite signatureDate_mapping in Hk. injection Hk as <-.
    rewrite (field_mapper_date rt form _ m Hm).
    unfold resolve_date. rewrite Hv. cbn [default].
    split; [done|]. by intros cap [[[=] _]|[[=] _]]. }
  assert (Hw : writes k t) by (split; [by apply skipped_false|done]).
  rewrite (field_mapper_text rt form _ m k _ t Hm Hv Hw Hdate).
  rewrite (truncate_value_non_string k v Hstr). split.
  - intros He Ht.
    by rewrite !bool_decide_eq_false_2 by done.
  - intros cap [[-> ->]|[-> ->]].
    + rewrite bool_decide_eq_true_2 by done. cbn [andb]. split.
      * intros Hle. apply Nat.ltb_ge in Hle. by rewrite Hle.
      * intros Hlt. pose proof Hlt as Hb. apply Nat.ltb_lt in Hb.
        rewrite Hb. split; [done|]. split; [|apply slice_to_prefix].
        rewrite slice_to_length. lia.
    + rewrite (bool_decide_eq_false_2 ("businessType" = "businessEmail"))
        by done.
      rewrite bool_decide_eq_true_2 by done. cbn [andb]. split.
      * intros Hle. apply Nat.ltb_ge in Hle. by rewrite Hle.
      * intros Hlt. pose proof Hlt as Hb. apply Nat.ltb_lt in Hb.
        rewrite Hb. split; [done|]. split; [|apply slice_to_prefix].
        rewrite slice_to_length. lia.
Qed.

(** C6. The template field of signatureDate holds, in the rendered field
    map, the resolved signature date itself: the input's signatureDate
    when the key is present, the current date otherwise. *)
Theorem signature_date_rendered form :
  ∃ m, rendered_field_map rt form = Some m ∧
    FIELD_MAPPING !! "signatureDate" = Some (Text "Text_39") ∧
    m !! "Text_39" = Some (resolve_date rt form) ∧
    resolve_date rt form
    = match form !! "signatureDate" with
      | Some v => v
      | None => JStr (strftime_ymd (now rt))
      end.
Proof.
  destruct (rendered_field_map_total form) as [m Hm].
  exists m. split; [done|]. split; [apply signatureDate_mapping|].
  split; [by apply (field_mapper_date rt form)|].
  unfold resolve_date. by destruct (form !! "signatureDate").
Qed.
End RenderedFieldMap.

(** ** The annotation *)

Lemma FIELD_MAPPING_no_annotation :
  map_Forall (λ _ tg, "Text_41" ∉ targets_of tg) FIELD_MAPPING.
Proof. apply (bool_decide_unpack _). vm_compute. exact I. Qed.

Section AnnotationFacts.
Variable rt : Runtime.
Implicit Types (form m : gmap string json) (d h : json).

(** The mapper leaves the annotation field alone. *)
Lemma field_mapper_no_annotation form d m :
  field_mapper rt form d = Some m → m !! "Text_41" = None.
Proof.
  unfold field_mapper. intros Hm.
  destruct (text_loop rt (map_to_list form) ∅) as [texts|] eqn:Ht; [|done].
  destruct (checkbox_loop rt form CHECKBOX_FIELDS texts)
    as [checked|] eqn:Hc; [|done].
  rewrite date_step_eq in Hm. injection Hm as <-.
  rewrite lookup_insert_ne by done.
  rewrite (checkbox_loop_frame rt form _ _ _ "Text_41" Hc).
  - rewrite (text_loop_frame rt _ _ _ "Text_41" Ht); [apply lookup_empty|].
    intros k v _ [_ Hk].
    apply (FIELD_MAPPING_no_annotation k _ Hk), list_elem_of_here.
  - intros cb tg _ Htg. apply (FIELD_MAPPING_no_annotation cb _ Htg).
Qed.

Lemma annotation_text_Some d h :
  is_Some (annotation_text rt d h) ↔ truthy d = true ∨ truthy h = true.
Proof.
  unfold annotation_text.
  destruct (truthy d), (truthy h); simpl; split; eauto.
  - intros [? [=]].
  - intros [[=]|[=]].
Qed.

Lemma today_truthy : truthy (JStr (strftime_ymd (now rt))) = true.
Proof.
  unfold strftime_ymd. simpl. by destruct (pretty (year (now rt))).
Qed.

Lemma annotation_text_no_hash d :
  ∃ pre, annotation_text rt d (JStr "N/A") = Some (pre +:+ "Hash: N/A").
Proof.
  unfold annotation_text. rewrite orb_true_r. simpl.
  destruct (truthy d); eauto.
Qed.

End AnnotationFacts.

(** ** The signature compositor *)

Lemma pages_from (pre suf : list page) :
  flat_map
    (λ i, if true
          then match (pre ++ suf)%list !! i with Some p => [p] | None => [] end
          else [])
    (seq (length pre) (length suf)) = suf.
Proof.
  revert pre. induction suf as [|p suf IH]; intros pre; [done|].
  cbn [length seq flat_map]. rewrite list_lookup_middle by done.
  cbn [app]. f_equal.
  specialize (IH (pre ++ [p])%list).
  rewrite <- app_assoc, length_app, Nat.add_1_r in IH. exact IH.
Qed.

Lemma pages_where_all (template_pages : list page) :
  pages_where (λ _, true) template_pages = template_pages.
Proof. apply (pages_from [] template_pages). Qed.

(** C4. With a target page index that is negative or at least the page
    count, the assembly returns the pages of the filled document, all of
    them, in their order and unchanged, and raises nothing. *)
Theorem merge_out_of_range (page_idx : Z)
    (template_pages overlay_pages : list page) :
  (page_idx < 0 ∨ Z.of_nat (length template_pages) ≤ page_idx)%Z →
  assemble_pages page_idx template_pages overlay_pages = Some template_pages.
Proof.
  intros Hout. unfold assemble_pages.
  destruct ((0 <=? page_idx)%Z
            && (page_idx <? Z.of_nat (length template_pages))%Z) eqn:Hin.
  - apply andb_true_iff in Hin as [H0 Hn].
    apply Z.leb_le in H0. apply Z.ltb_lt in Hn. lia.
  - by rewrite pages_where_all.
Qed.

Section Geometry.
Variable rt : Runtime.

Lemma overlay_height_exact (W H : Z) :
  (0 < W)%Z → exact rt W → exact rt H →
  overlay_height rt W H
  = Some (fmul rt (fmul rt (of_int rt 350)
                     (fdiv rt (Qc_of_Z H) (Qc_of_Z W)))
            (quarter rt)).
Proof.
  intros HW EW EH. unfold overlay_height. rewrite EW, EH.
  rewrite bool_decide_eq_false_2; [done|].
  intros Heq%Z2Qc_inj. lia.
Qed.

Lemma same_ratio (W H W' H' : Z) :
  (0 < W)%Z → (0 < W')%Z → (H * W' = H' * W)%Z →
  (Qc_of_Z H' / Qc_of_Z W' = Qc_of_Z H / Qc_of_Z W)%Qc.
Proof.
  intros HW HW' Heq.
  assert (Hw : Qc_of_Z W ≠ Qc_of_Z 0) by (intros E%Z2Qc_inj; lia).
  assert (Hw' : Qc_of_Z W' ≠ Qc_of_Z 0) by (intros E%Z2Qc_inj; lia).
  rewrite Z2Qc_inj_0 in Hw, Hw'.
  apply (f_equal Qc_of_Z) in Heq. rewrite !Z2Qc_inj_mul in Heq.
  assert (E : Qc_of_Z H' = (Qc_of_Z H * Qc_of_Z W' / Qc_of_Z W)%Qc).
  { rewrite Heq. field. exact Hw. }
  rewrite E. field. by split.
Qed.

(** C5. For a raster of width W > 0 and height H the overlay height is the
    float evaluation of 350 * (H / W) * 0.25, the value 350 * (H / W) / 4
    itself when the arithmetic is exact, and two rasters with the same
    ratio H / W get the same height. *)
Theorem overlay_height_aspect (W H W' H' : Z) :
  (0 < W)%Z → (0 < W')%Z →
  exact rt W → exact rt H → exact rt W' → exact rt H' →
  overlay_height rt W H
  = Some (fmul rt (fmul rt (of_int rt 350)
                     (fdiv rt (Qc_of_Z H) (Qc_of_Z W)))
            (quarter rt)) ∧
  ((∀ q, rnd rt q = q) →
   overlay_height rt W H
   = Some (Qc_of_Z 350 * (Qc_of_Z H / Qc_of_Z W) * / Qc_of_Z 4)%Qc) ∧
  ((H * W' = H' * W)%Z → overlay_height rt W' H' = overlay_height rt W H).
Proof.
  intros HW HW' EW EH EW' EH'.
  rewrite !overlay_height_exact by done. split; [done|]. split.
  - intros Hid. unfold fmul, fdiv, of_int, quarter. by rewrite !Hid.
  - intros Heq. unfold fdiv. by rewrite (same_ratio W H W' H').
Qed.
End Geometry.

(** ** The request handler *)


Lemma append_snoc (cur : string) (c : ascii) (r : string) :
  (cur +:+ String c "") +:+ r = cur +:+ String c r.
Proof.
  induction cur as [|a cur IH]; [done|].
  change (String a ((cur +:+ String c "") +:+ r)
          = String a (cur +:+ String c r)).
  by rewrite IH.
Qed.

Lemma split_on_head (sep : ascii) (cur s : string) :
  ∃ seg segs, split_on sep cur s = seg :: segs.
Proof.
  revert cur. induction s as [|c r IH]; intros cur; cbn; [eauto|].
  destruct (Ascii.eqb c sep); eauto.
Qed.

Lemma append_nil_r (s : string) : s +:+ "" = s.
Proof.
  induction s as [|a s IH]; [done|].
  change (String a (s +:+ "") = String a s). by rewrite IH.
Qed.

Lemma split_on_no_comma (cur s : string) :
  has_comma s = false → split_on "," cur s = [cur +:+ s].
Proof.
  revert cur. induction s as [|c r IH]; intros cur Hc.
  - cbn [split_on]. by rewrite append_nil_r.
  - cbn [split_on has_comma] in *.
    apply orb_false_iff in Hc as [Hc Hr]. rewrite Hc, (IH _ Hr).
    f_equal. apply append_snoc.
Qed.

(** Without a second comma the whole payload is decoded. *)
Lemma first_segment_no_comma (payload : string) :
  has_comma payload = false → first_segment payload = payload.
Proof.
  intros Hc. unfold first_segment, split_comma.
  by rewrite split_on_no_comma.
Qed.

Lemma split_comma_signature (payload : string) :
  split_comma ("data:image/png;base64," +:+ payload) !! 1%nat
  = Some (first_segment payload).
Proof.
  unfold first_segment.
  change (split_comma ("data:image/png;base64," +:+ payload))
    with ("data:image/png;base64" :: split_comma payload).
  destruct (split_on_head "," "" payload) as (seg & segs & Hs).
  unfold split_comma. by rewrite Hs.
Qed.

Section HandlerFacts.
Variable rt : Runtime.
Implicit Types (fs : gmap string file) (form : gmap string json).

Lemma non_post_405 req fs :
  method req ≠ "POST" →
  fill_pdf_form rt req fs
  = (Response (BodyText "Only POST requests are accepted") 405, fs).
Proof.
  intros Hm. unfold fill_pdf_form.
  destruct (String.eqb_spec (method req) "POST") as [|_]; done.
Qed.

Lemma not_a_list_400 payload fs :
  (∀ data rest, payload ≠ Some (JList (data :: rest))) →
  fill_pdf_form rt (Request "POST" payload) fs
  = (Response
       (BodyText "Invalid input format: Expected a non-empty list.") 400, fs).
Proof.
  intros Hl. unfold fill_pdf_form. cbn.
  destruct payload as [[| | | | |[|data rest]|]|]; try done.
  by destruct (Hl data rest).
Qed.

Lemma object_without_body_400 d rest fs :
  d !! "body" = None →
  fill_pdf_form rt (post (JList (JDict d :: rest))) fs
  = (Response (BodyText "Invalid input format: Missing 'body' key.") 400, fs).
Proof.
  intros Hb. unfold fill_pdf_form, handle_data. cbn. rewrite Hb.
  by rewrite bool_decide_eq_false_2 by (by intros [? [=]]).
Qed.

(** C7 (the code at the failing input). A POST whose body is a list that
    starts with a number, such as [5], is answered with status 500 through
    the catch-all of lines 365-371, not with 400; an empty object in the
    same place gets the 400 of line 215. *)
Theorem non_object_element_500 (z : Z) rest fs :
  fill_pdf_form rt (post (JList (JInt z :: rest))) fs
  = (Response (BodyText "An unexpected error occurred") 500, fs) ∧
  fill_pdf_form rt (post (JList (JDict ∅ :: rest))) fs
  = (Response (BodyText "Invalid input format: Missing 'body' key.") 400, fs).
Proof. split; [reflexivity|]. by apply object_without_body_400. Qed.

(** Every first element that is null, a boolean or a number ends there. *)
Lemma not_iterable_element_500 data rest fs :
  py_in_body data = None →
  fill_pdf_form rt (post (JList (data :: rest))) fs
  = (Response (BodyText "An unexpected error occurred") 500, fs).
Proof.
  intros Hd. unfold fill_pdf_form, handle_data. cbn. by rewrite Hd.
Qed.

Lemma save_signature_undecodable payload fs :
  b64decode rt (first_segment payload) = None →
  save_signature rt ("data:image/png;base64," +:+ payload) fs = None.
Proof.
  intros Hd. unfold save_signature.
  rewrite split_comma_signature. cbn. by rewrite Hd.
Qed.

(** C8 (amended). When the signature has the required prefix, the template
    exists and has form fields, and decoding the text between the prefix
    and the next comma fails, the handler answers 500 with the message of
    line 252 and writes no scratch file. *)
Theorem undecodable_signature_500 d form payload rest template_pdf
    available_fields fs :
  d !! "body" = Some (JDict form) →
  form !! "signatureImageBase64"
    = Some (JStr ("data:image/png;base64," +:+ payload)) →
  template rt = Some template_pdf →
  get_form_fields rt template_pdf = Some available_fields →
  available_fields ≠ ∅ →
  b64decode rt (first_segment payload) = None →
  fill_pdf_form rt (post (JList (JDict d :: rest))) fs
  = (Response (BodyText "Error processing signature") 500, fs).
Proof.
  intros Hb Hsig Ht Hf Hne Hd.
  unfold fill_pdf_form, handle_data. cbn. rewrite Hb. cbn. rewrite Hsig. cbn.
  unfold process. rewrite Ht, Hf.
  rewrite bool_decide_eq_false_2 by done.
  by rewrite save_signature_undecodable.
Qed.

Lemma fill_file_keeps source output data fs fs' p :
  fill_file rt source output data fs = Some fs' →
  is_Some (fs !! p) → is_Some (fs' !! p).
Proof.
  unfold fill_file. intros Hf Hp.
  destruct source as [input|]; [|done]. cbn in Hf.
  destruct (write_fillable_pdf rt input data) as [filled|]; [|done].
  cbn in Hf. destruct (can_write rt output); [|done].
  injection Hf as <-. rewrite lookup_insert. by case_decide.
Qed.

Lemma add_signature_keeps fs input output sig fs' p :
  add_signature_to_pdf rt fs input output sig = Some fs' →
  is_Some (fs !! p) → is_Some (fs' !! p).
Proof.
  unfold add_signature_to_pdf. intros Ha Hp.
  destruct (fs !! input) as [[|template_pdf]|]; try done.
  destruct (fs !! sig) as [[bytes|]|]; try done.
  destruct (image_open rt bytes) as [[w h]|]; [|done]. cbn in Ha.
  destruct (overlay_height rt w h) as [height|]; [|done]. cbn in Ha.
  destruct (assemble_pages _ _ _) as [out|]; [|done]. cbn in Ha.
  destruct (can_write rt output); [|done].
  injection Ha as <-. rewrite lookup_insert. by case_decide.
Qed.

(** The [try] block of lines 305-342 removes no scratch file, whether it
    raises or not. *)
Lemma fill_and_sign_keeps pdf_form_data d h fs ok fs' p :
  fill_and_sign rt pdf_form_data d h fs = (ok, fs') →
  is_Some (fs !! p) → is_Some (fs' !! p).
Proof.
  unfold fill_and_sign. intros Hf Hp.
  destruct (fill_file rt (template rt) _ pdf_form_data fs)
    as [fs1|] eqn:H1; [|by injection Hf as <- <-].
  pose proof (fill_file_keeps _ _ _ _ _ p H1 Hp) as Hp1.
  destruct (annotation_text rt d h) as [text|].
  - destruct (fill_file rt (read_pdf fs1 _) _ _ fs1) as [fs2|] eqn:H2;
      [|by injection Hf as <- <-].
    pose proof (fill_file_keeps _ _ _ _ _ p H2 Hp1) as Hp2.
    destruct (add_signature_to_pdf rt fs2 _ _ _) as [fs3|] eqn:H3;
      injection Hf as <- <-; [|done].
    by eapply add_signature_keeps.
  - destruct (add_signature_to_pdf rt fs1 _ _ _) as [fs3|] eqn:H3;
      injection Hf as <- <-; [|done].
    by eapply add_signature_keeps.
Qed.

(** When that block raises, the handler returns from line 342 with the
    signature image still on disk. *)
Lemma fill_error_leaves_signature form signature h d fs template_pdf
    available_fields fs1 pdf_form_data fs2 :
  template rt = Some template_pdf →
  get_form_fields rt template_pdf = Some available_fields →
  available_fields ≠ ∅ →
  save_signature rt signature fs = Some fs1 →
  field_mapper rt form d = Some pdf_form_data →
  fill_and_sign rt pdf_form_data d h fs1 = (false, fs2) →
  process rt form signature h d fs
  = (Response (BodyText "Error filling PDF form") 500, fs2) ∧
  is_Some (fs2 !! temp_signature_path).
Proof.
  intros Ht Hf Hne Hs Hm Hfill. unfold process.
  rewrite Ht, Hf, bool_decide_eq_false_2, Hs, Hm, Hfill by done.
  split; [done|].
  apply (fill_and_sign_keeps _ _ _ _ _ _ _ Hfill).
  unfold save_signature in Hs.
  destruct (split_comma signature !! 1%nat) as [data|]; [|done]. cbn in Hs.
  destruct (b64decode rt data) as [bytes|]; [|done]. cbn in Hs.
  destruct (can_write rt temp_signature_path); [|done].
  injection Hs as <-. rewrite lookup_insert_eq. eauto.
Qed.
End HandlerFacts.


(** C9 (the code at the failing input). A signature that decodes to bytes
    that are no image makes [add_signature_to_pdf] raise; the handler
    answers 500 from line 342 and the signature image and the intermediate
    filled document are still on disk. *)
Theorem scratch_files_left_on_fill_error :
  let result := fill_pdf_form rt_example (post (wrap form_not_png)) ∅ in
  result.1 = Response (BodyText "Error filling PDF form") 500 ∧
  result.2 !! temp_signature_path
    = Some (FileBytes [Byte.x00; Byte.x00; Byte.x00]) ∧
  is_Some (result.2 !! temp_filled_pdf_path rt_example) ∧
  result.2 !! output_pdf_path rt_example = None.
Proof.
  cbv zeta. split; [by vm_compute|]. split; [by vm_compute|].
  split; [|by vm_compute]. vm_compute. eauto.
Qed.

(** On the success path the three scratch files are gone. *)
Example success_cleans_up :
  let result := fill_pdf_form rt_example (post (wrap form_example)) ∅ in
  status result.1 = 200%Z ∧ result.2 = ∅.
Proof. cbv zeta. split; by vm_compute. Qed.

(** ** The annotation write of lines 314-330 *)

Lemma pages_range (keep : nat → bool) (pre mid post : list page) :
  (∀ i, (length pre ≤ i < length pre + length mid)%nat → keep i = true) →
  flat_map
    (λ i, if keep i
          then match (pre ++ mid ++ post)%list !! i with
               | Some p => [p] | None => []
               end
          else [])
    (seq (length pre) (length mid)) = mid.
Proof.
  revert pre. induction mid as [|p mid IH]; intros pre Hkeep; [done|].
  cbn [length seq flat_map]. rewrite Hkeep by (cbn [length]; lia).
  change ((pre ++ (p :: mid) ++ post)%list) with (pre ++ p :: mid ++ post)%list.
  rewrite list_lookup_middle by done. cbn [app]. f_equal.
  specialize (IH (pre ++ [p])%list).
  rewrite <- app_assoc, length_app, Nat.add_1_r in IH. apply IH.
  intros i Hi. apply Hkeep. cbn [length]. lia.
Qed.

Lemma pages_where_split (pre suf : list page) (p : page) :
  pages_where (λ i, negb (Z.of_nat i =? Z.of_nat (length pre))%Z)
    (pre ++ p :: suf) = (pre ++ suf)%list.
Proof.
  unfold pages_where.
  rewrite length_app. cbn [length].
  replace (length pre + S (length suf))%nat
    with (length pre + (1 + length suf))%nat by lia.
  rewrite !seq_app, !flat_map_app. cbn [seq flat_map].
  rewrite Z.eqb_refl. cbn [negb app]. f_equal.
  - apply (pages_range _ [] pre (p :: suf)). intros i Hi. cbn [length] in Hi.
    apply negb_true_iff, Z.eqb_neq. lia.
  - replace (0 + length pre + 1)%nat with (length (pre ++ [p])%list)
      by (rewrite length_app; cbn [length]; lia).
    replace (pre ++ p :: suf)%list with ((pre ++ [p]) ++ suf ++ [])%list
      by (by rewrite app_nil_r, <- app_assoc).
    apply pages_range. intros i Hi. rewrite length_app in Hi.
    cbn [length] in Hi. apply negb_true_iff, Z.eqb_neq. lia.
Qed.

Lemma assemble_pages_in_range (pre suf : list page) (p overlay : page)
    (overlays : list page) :
  assemble_pages (Z.of_nat (length pre)) (pre ++ p :: suf)
    (overlay :: overlays)
  = Some (MergedPage p overlay :: pre ++ suf).
Proof.
  unfold assemble_pages.
  assert (Hin : (0 <=? Z.of_nat (length pre))%Z
                && (Z.of_nat (length pre)
                    <? Z.of_nat (length (pre ++ p :: suf)))%Z = true).
  { apply andb_true_iff. split; [apply Z.leb_le; lia|].
    apply Z.ltb_lt. rewrite length_app. cbn [length]. lia. }
  rewrite Hin, Nat2Z.id, list_lookup_middle by done.
  cbn [lookup list_lookup]. by rewrite pages_where_split.
Qed.

Section AnnotationWrite.
Variable rt : Runtime.
Implicit Types (fs : gmap string file) (form m : gmap string json).

Lemma fill_file_frame source output data fs fs' p :
  fill_file rt source output data fs = Some fs' →
  p ≠ output → fs' !! p = fs !! p.
Proof.
  unfold fill_file. intros Hf Hp.
  destruct source as [input|]; [|done]. cbn in Hf.
  destruct (write_fillable_pdf rt input data) as [filled|]; [|done].
  cbn in Hf. destruct (can_write rt output); [|done].
  injection Hf as <-. by rewrite lookup_insert_ne.
Qed.

Lemma add_signature_frame fs input output sig fs' p :
  add_signature_to_pdf rt fs input output sig = Some fs' →
  p ≠ output → fs' !! p = fs !! p.
Proof.
  unfold add_signature_to_pdf. intros Ha Hp.
  destruct (fs !! input) as [[|template_pdf]|]; try done.
  destruct (fs !! sig) as [[bytes|]|]; try done.
  destruct (image_open rt bytes) as [[w h]|]; [|done]. cbn in Ha.
  destruct (overlay_height rt w h) as [height|]; [|done]. cbn in Ha.
  destruct (assemble_pages _ _ _) as [out|]; [|done]. cbn in Ha.
  destruct (can_write rt output); [|done].
  injection Ha as <-. by rewrite lookup_insert_ne.
Qed.

Lemma add_signature_inv fs input output sig fs' :
  add_signature_to_pdf rt fs input output sig = Some fs' →
  ∃ template_pdf height,
    fs !! input = Some (FilePdf template_pdf) ∧
    fs' = <[output :=
              FilePdf
                (Document
                   match pages template_pdf with
                   | [] => []
                   | first :: others =>
                       MergedPage first (CanvasPage 50 50 350 height)
                       :: others
                   end
                   (fields template_pdf))]> fs.
Proof.
  unfold add_signature_to_pdf. intros Ha.
  destruct (fs !! input) as [[|template_pdf]|]; try done.
  destruct (fs !! sig) as [[bytes|]|]; try done.
  destruct (image_open rt bytes) as [[w h]|]; [|done]. cbn in Ha.
  destruct (overlay_height rt w h) as [height|]; [|done]. cbn in Ha.
  exists template_pdf, height. split; [done|].
  destruct (pages template_pdf) as [|first others] eqn:Hp.
  - cbn in Ha. destruct (can_write rt output); [|done].
    by injection Ha as <-.
  - change (sp_page SIGNATURE_POSITION) with (Z.of_nat (length (@nil page)))
      in Ha.
    change (first :: others) with ([] ++ first :: others)%list in Ha.
    rewrite (assemble_pages_in_range [] others first _ []) in Ha. cbn in Ha.
    destruct (can_write rt output); [|done].
    by injection Ha as <-.
Qed.

(** The values of line 220 and 221 are falsy only when the caller sent
    them. *)
Lemma resolved_falsy_explicit form :
  truthy (match form !! "signatureDate" with
          | Some v => v
          | None => JStr (strftime_ymd (now rt))
          end) = false →
  truthy (match form !! "signatureDataHash" with
          | Some v => v
          | None => JStr "N/A"
          end) = false →
  ∃ vd vh, form !! "signatureDate" = Some vd ∧ truthy vd = false ∧
           form !! "signatureDataHash" = Some vh ∧ truthy vh = false.
Proof.
  destruct (form !! "signatureDate") as [vd|];
    [|by rewrite today_truthy].
  destruct (form !! "signatureDataHash") as [vh|]; [|done].
  intros Hd Hh. by exists vd, vh.
Qed.

(** The intermediate document after the [try] block of lines 305-342. *)
Lemma fill_and_sign_intermediate m date hash fs template_pdf filled :
  template rt = Some template_pdf →
  write_fillable_pdf rt template_pdf m = Some filled →
  can_write rt (temp_filled_pdf_path rt) = true →
  output_pdf_path rt ≠ temp_filled_pdf_path rt →
  match annotation_text rt date hash with
  | Some text =>
      match write_fillable_pdf rt filled {[ "Text_41" := JStr text ]} with
      | Some annotated =>
          (fill_and_sign rt m date hash fs).2 !! temp_filled_pdf_path rt
          = Some (FilePdf annotated)
      | None =>
          (fill_and_sign rt m date hash fs).1 = false ∧
          (fill_and_sign rt m date hash fs).2 !! temp_filled_pdf_path rt
          = Some (FilePdf filled)
      end
  | None =>
      (fill_and_sign rt m date hash fs).2 !! temp_filled_pdf_path rt
      = Some (FilePdf filled)
  end.
Proof.
  intros Ht Hfilled Hwrite Hpaths.
  assert (Hsign : ∀ fs2 doc,
            fs2 !! temp_filled_pdf_path rt = Some (FilePdf doc) →
            (match add_signature_to_pdf rt fs2 (temp_filled_pdf_path rt)
                     (output_pdf_path rt) temp_signature_path with
             | Some fs3 => (true, fs3)
             | None => (false, fs2)
             end).2 !! temp_filled_pdf_path rt = Some (FilePdf doc)).
  { intros fs2 doc Hdoc.
    destruct (add_signature_to_pdf rt fs2 _ _ _) as [fs3|] eqn:Ha; [|done].
    cbn [snd]. by rewrite (add_signature_frame _ _ _ _ _ _ Ha). }
  unfold fill_and_sign, fill_file. rewrite Ht. cbn [mbind option_bind].
  rewrite Hfilled. cbn [mbind option_bind]. rewrite Hwrite.
  destruct (annotation_text rt date hash) as [text|].
  - unfold read_pdf. rewrite lookup_insert_eq. cbn [mbind option_bind].
    destruct (write_fillable_pdf rt filled {[ "Text_41" := JStr text ]})
      as [annotated|]; cbn [mbind option_bind].
    + apply Hsign, lookup_insert_eq.
    + cbn [fst snd]. split; [done|apply lookup_insert_eq].
  - apply Hsign, lookup_insert_eq.
Qed.

Lemma fill_and_sign_success m date hash fs fs' :
  fill_and_sign rt m date hash fs = (true, fs') →
  ∃ template_pdf filled annotated fs2,
    template rt = Some template_pdf ∧
    write_fillable_pdf rt template_pdf m = Some filled ∧
    match annotation_text rt date hash with
    | Some text =>
        write_fillable_pdf rt filled {[ "Text_41" := JStr text ]}
        = Some annotated
    | None => annotated = filled
    end ∧
    fs2 !! temp_filled_pdf_path rt = Some (FilePdf annotated) ∧
    add_signature_to_pdf rt fs2 (temp_filled_pdf_path rt)
      (output_pdf_path rt) temp_signature_path = Some fs'.
Proof.
  unfold fill_and_sign, fill_file. intros Hf.
  destruct (template rt) as [template_pdf|] eqn:Ht; [|done].
  cbn [mbind option_bind] in Hf.
  destruct (write_fillable_pdf rt template_pdf m) as [filled|] eqn:H1;
    [|done].
  cbn [mbind option_bind] in Hf.
  destruct (can_write rt (temp_filled_pdf_path rt)); [|done].
  destruct (annotation_text rt date hash) as [text|].
  - unfold read_pdf in Hf. rewrite lookup_insert_eq in Hf.
    cbn [mbind option_bind] in Hf.
    destruct (write_fillable_pdf rt filled {[ "Text_41" := JStr text ]})
      as [annotated|] eqn:H2; [|done].
    cbn [mbind option_bind] in Hf.
    destruct (add_signature_to_pdf rt _ _ _ _) as [fs3|] eqn:Ha; [|done].
    injection Hf as <-.
    eexists template_pdf, filled, annotated, _.
    split; [done|]. split; [exact H1|]. split; [exact H2|].
    split; [apply lookup_insert_eq|exact Ha].
  - destruct (add_signature_to_pdf rt _ _ _ _) as [fs3|] eqn:Ha; [|done].
    injection Hf as <-.
    eexists template_pdf, filled, filled, _.
    split; [done|]. split; [exact H1|]. split; [done|].
    split; [apply lookup_insert_eq|exact Ha].
Qed.

(** What a 200 answer of [process] returns. *)
Lemma process_success form signature hash date fs pdf :
  (process rt form signature hash date fs).1 = Response (BodyPdf pdf) 200 →
  ∃ template_pdf m filled annotated height,
    template rt = Some template_pdf ∧
    field_mapper rt form date = Some m ∧
    write_fillable_pdf rt template_pdf m = Some filled ∧
    match annotation_text rt date hash with
    | Some text =>
        write_fillable_pdf rt filled {[ "Text_41" := JStr text ]}
        = Some annotated
    | None => annotated = filled
    end ∧
    pages pdf
    = match pages annotated with
      | [] => []
      | first :: others =>
          MergedPage first (CanvasPage 50 50 350 height) :: others
      end.
Proof.
  unfold process. intros Hr.
  destruct (template rt) as [template_pdf|] eqn:Ht; [|done].
  destruct (get_form_fields rt template_pdf) as [af|]; [|done].
  case_bool_decide; [done|].
  destruct (save_signature rt signature fs) as [fs1|]; [|done].
  destruct (field_mapper rt form date) as [m|] eqn:Hm; [|done].
  destruct (fill_and_sign rt m date hash fs1) as [[|] fs2] eqn:Hfill;
    [|done].
  destruct (fill_and_sign_success _ _ _ _ _ Hfill)
    as (tpl & filled & annotated & fsa & Ht' & Hfilled & Hann & Hdoc & Ha).
  rewrite Ht in Ht'. injection Ht' as <-.
  destruct (add_signature_inv _ _ _ _ _ Ha) as (doc & height & Hdoc' & ->).
  rewrite Hdoc in Hdoc'. injection Hdoc' as <-.
  destruct (can_read rt (output_pdf_path rt)); [|done].
  unfold read_pdf in Hr. rewrite lookup_insert_eq in Hr.
  cbn [fst] in Hr. injection Hr as <-.
  by exists template_pdf, m, filled, annotated, height.
Qed.

(** C10. For a request that reaches the form filling, with the signature
    date and hash resolved as in lines 220-221: the second write pass runs,
    with the single field [Text_41], exactly when the date or the hash is
    truthy, and is skipped only when the caller sent falsy values for both
    signatureDate and signatureDataHash; with the hash key absent the text
    written ends with the clause "Hash: N/A". This holds for the
    intermediate document that the [try] block leaves, whether or not it
    then fails, and for the document of a 200 answer. *)
Theorem annotation_written d form payload rest fs :
  d !! "body" = Some (JDict form) →
  form !! "signatureImageBase64"
    = Some (JStr ("data:image/png;base64," +:+ payload)) →
  let signature_date :=
    match form !! "signatureDate" with
    | Some v => v
    | None => JStr (strftime_ymd (now rt))
    end in
  let signature_hash :=
    match form !! "signatureDataHash" with
    | Some v => v
    | None => JStr "N/A"
    end in
  let written text : Prop :=
    annotation_text rt signature_date signature_hash = Some text ∧
    (form !! "signatureDataHash" = None →
       ∃ pre, text = pre +:+ "Hash: N/A") in
  (truthy signature_date = false ∧ truthy signature_hash = false →
     ∃ vd vh, form !! "signatureDate" = Some vd ∧ truthy vd = false ∧
              form !! "signatureDataHash" = Some vh ∧ truthy vh = false) ∧
  (∀ m fs1 template_pdf filled,
     template rt = Some template_pdf →
     write_fillable_pdf rt template_pdf m = Some filled →
     can_write rt (temp_filled_pdf_path rt) = true →
     output_pdf_path rt ≠ temp_filled_pdf_path rt →
     let after := fill_and_sign rt m signature_date signature_hash fs1 in
     (truthy signature_date = true ∨ truthy signature_hash = true →
        ∃ text, written text ∧
          match write_fillable_pdf rt filled {[ "Text_41" := JStr text ]} with
          | Some annotated =>
              after.2 !! temp_filled_pdf_path rt = Some (FilePdf annotated)
          | None =>
              after.1 = false ∧
              after.2 !! temp_filled_pdf_path rt = Some (FilePdf filled)
          end) ∧
     (truthy signature_date = false ∧ truthy signature_hash = false →
        after.2 !! temp_filled_pdf_path rt = Some (FilePdf filled))) ∧
  (∀ pdf,
     (fill_pdf_form rt (post (JList (JDict d :: rest))) fs).1
       = Response (BodyPdf pdf) 200 →
     ∃ template_pdf m filled annotated height,
       template rt = Some template_pdf ∧
       rendered_field_map rt form = Some m ∧
       write_fillable_pdf rt template_pdf m = Some filled ∧
       pages pdf
       = match pages annotated with
         | [] => []
         | first :: others =>
             MergedPage first (CanvasPage 50 50 350 height) :: others
         end ∧
       (truthy signature_date = true ∨ truthy signature_hash = true →
          ∃ text, written text ∧
            write_fillable_pdf rt filled {[ "Text_41" := JStr text ]}
            = Some annotated) ∧
       (truthy signature_date = false ∧ truthy signature_hash = false →
          annotated = filled)).
Proof.
  intros Hb Hsig. cbv zeta.
  set (date := match form !! "signatureDate" with
               | Some v => v
               | None => JStr (strftime_ymd (now rt))
               end).
  set (hash := match form !! "signatureDataHash" with
               | Some v => v
               | None => JStr "N/A"
               end).
  assert (Hdate : resolve_date rt form = date)
    by (unfold resolve_date, date; by destruct (form !! "signatureDate")).
  assert (Hhash : resolve_hash form = hash)
    by (unfold resolve_hash, hash; by destruct (form !! "signatureDataHash")).
  assert (Htext : truthy date = true ∨ truthy hash = true →
            ∃ text, annotation_text rt date hash = Some text ∧
              (form !! "signatureDataHash" = None →
                 ∃ pre, text = pre +:+ "Hash: N/A")).
  { intros Htr.
    apply (proj2 (annotation_text_Some rt date hash)) in Htr as [text Htext].
    exists text. split; [done|]. intros Habs.
    unfold hash in Htext. rewrite Habs in Htext.
    destruct (annotation_text_no_hash rt date) as [pre Hpre].
    exists pre. congruence. }
  assert (Hskip : truthy date = false ∧ truthy hash = false →
            annotation_text rt date hash = None).
  { intros [Hd Hh]. apply eq_None_not_Some.
    rewrite annotation_text_Some. intros [?|?]; congruence. }
  split; [|split].
  - intros [Hd Hh]. by apply resolved_falsy_explicit.
  - intros m fs1 tpl filled Ht Hfilled Hwrite Hpaths.
    pose proof (fill_and_sign_intermediate m date hash fs1 tpl filled
                  Ht Hfilled Hwrite Hpaths) as Hmid.
    split.
    + intros Htr. destruct (Htext Htr) as (text & Hann & Hsuffix).
      rewrite Hann in Hmid. by exists text.
    + intros Hfalsy. by rewrite (Hskip Hfalsy) in Hmid.
  - intros pdf Hr.
    unfold fill_pdf_form, handle_data in Hr.
    cbn -[startswith] in Hr. rewrite Hb in Hr. cbn -[startswith] in Hr.
    rewrite Hsig in Hr. cbn in Hr. rewrite Hdate, Hhash in Hr.
    destruct (process_success _ _ _ _ _ _ Hr)
      as (tpl & m & filled & annotated & height & Ht & Hm & Hfilled
          & Hann & Hpages).
    exists tpl, m, filled, annotated, height.
    split; [done|]. split; [by unfold rendered_field_map; rewrite Hdate|].
    split; [done|]. split; [done|]. split.
    + intros Htr. destruct (Htext Htr) as (text & Htxt & Hsuffix).
      rewrite Htxt in Hann. by exists text.
    + intros Hfalsy. by rewrite (Hskip Hfalsy) in Hann.
Qed.
End AnnotationWrite.

(** ** The theorems at concrete inputs *)

Ltac by_eval := apply (bool_decide_unpack _); vm_compute; exact I.

Lemma checkbox_pair_rendered_witness :
  "bankAccountOpen90Days" ∈ CHECKBOX_FIELDS ∧
  form_example !! "bankAccountOpen90Days" = Some (JStr "yes") ∧
  ∃ m, rendered_field_map rt_example form_example = Some m ∧
       m !! "Checkbox_1" = Some (JStr "Yes") ∧
       m !! "Checkbox_2" = Some (JStr "Off").
Proof.
  assert (Hcb : "bankAccountOpen90Days" ∈ CHECKBOX_FIELDS) by by_eval.
  assert (Hv : form_example !! "bankAccountOpen90Days" = Some (JStr "yes"))
    by (vm_compute; reflexivity).
  split; [exact Hcb|]. split; [exact Hv|].
  destruct (checkbox_pair_rendered rt_example form_example _ _ Hcb Hv)
    as (y & n & m & Hpair & _ & Hm & Hyes & _).
  assert (Hp : FIELD_MAPPING !! "bankAccountOpen90Days"
               = Some (Pair "Checkbox_1" "Checkbox_2"))
    by (vm_compute; reflexivity).
  rewrite Hp in Hpair. injection Hpair as <- <-.
  exists m. split; [exact Hm|]. apply Hyes. right. by_eval.
Defined.

Lemma text_field_rendered_witness :
  form_example !! "legalBusinessName" = Some (JStr "Acme Inc") ∧
  ("legalBusinessName" ∉ CHECKBOX_FIELDS) ∧
  ("legalBusinessName" ∉ SIGNATURE_KEYS) ∧
  "legalBusinessName" ≠ "signatureDate" ∧
  ∃ m, rendered_field_map rt_example form_example = Some m ∧
       m !! "Text_1" = Some (JStr "Acme Inc").
Proof.
  assert (Hv : form_example !! "legalBusinessName" = Some (JStr "Acme Inc"))
    by (vm_compute; reflexivity).
  assert (Hcb : "legalBusinessName" ∉ CHECKBOX_FIELDS) by by_eval.
  assert (Hsig : "legalBusinessName" ∉ SIGNATURE_KEYS) by by_eval.
  assert (Hd : "legalBusinessName" ≠ "signatureDate") by by_eval.
  repeat (split; [assumption|]).
  destruct (text_field_rendered rt_example form_example _ _ Hv Hcb Hsig Hd)
    as (m & Hm & Htext & _).
  exists m. split; [exact Hm|].
  apply (Htext "Text_1" "Acme Inc"); [vm_compute; reflexivity|reflexivity|].
  vm_compute. lia.
Defined.

Lemma non_string_rendered_witness :
  form_big_type !! "businessType" = Some (JInt (10 ^ 35)) ∧
  is_str (JInt (10 ^ 35)) = false ∧
  ("businessType" ∉ CHECKBOX_FIELDS) ∧
  ("businessType" ∉ SIGNATURE_KEYS) ∧
  FIELD_MAPPING !! "businessType" = Some (Text "Text_15") ∧
  ∃ m, rendered_field_map rt_example form_big_type = Some m ∧
       m !! "Text_15" = Some (JStr "10000000000000000000000000000000000").
Proof.
  assert (Hv : form_big_type !! "businessType" = Some (JInt (10 ^ 35)))
    by (vm_compute; reflexivity).
  assert (Hcb : "businessType" ∉ CHECKBOX_FIELDS) by by_eval.
  assert (Hsig : "businessType" ∉ SIGNATURE_KEYS) by by_eval.
  assert (Hk : FIELD_MAPPING !! "businessType" = Some (Text "Text_15"))
    by (vm_compute; reflexivity).
  split; [exact Hv|]. split; [reflexivity|].
  repeat (split; [assumption|]).
  destruct (non_string_rendered rt_example form_big_type _ _ _ Hv eq_refl
              Hcb Hsig Hk) as (m & Hm & _ & Hcap).
  exists m. split; [exact Hm|].
  destruct (Hcap 35%nat (or_intror (conj eq_refl eq_refl))) as [_ Hlong].
  destruct Hlong as [Ht _]; [vm_compute; lia|].
  rewrite Ht. vm_compute. reflexivity.
Defined.

Lemma merge_out_of_range_witness :
  (2 < 0 ∨ Z.of_nat (length [SourcePage 0; SourcePage 1]) ≤ 2)%Z ∧
  assemble_pages 2 [SourcePage 0; SourcePage 1]
    [CanvasPage 50 50 350 (Qc_of_Z 20)]
  = Some [SourcePage 0; SourcePage 1].
Proof.
  assert (H : (2 < 0 ∨ Z.of_nat (length [SourcePage 0; SourcePage 1]) ≤ 2)%Z)
    by (right; simpl; lia).
  split; [exact H|]. apply (merge_out_of_range 2 _ _ H).
Defined.

Lemma exact_example (n : Z) : exact rt_example n.
Proof.
  unfold exact, of_int. cbn [rnd rt_example]. unfold round_1024.
  apply Qc_is_canon. cbn [this Q2Qc]. rewrite Qred_correct.
  unfold Qc_of_Z. cbn [this].
  change 1024%Q with (inject_Z 1024).
  rewrite <- inject_Z_mult, Qfloor_Z.
  unfold Qeq, inject_Z. cbn [Qnum Qden]. lia.
Qed.

Lemma overlay_height_aspect_witness :
  (0 < 400)%Z ∧ (0 < 800)%Z ∧
  exact rt_example 400 ∧ exact rt_example 100 ∧
  exact rt_example 800 ∧ exact rt_example 200 ∧
  (100 * 800 = 200 * 400)%Z ∧
  overlay_height rt_example 800 200 = overlay_height rt_example 400 100.
Proof.
  repeat (split; [first [lia | apply exact_example]|]).
  apply (overlay_height_aspect rt_example 400 100 800 200);
    first [lia | apply exact_example].
Defined.

Lemma undecodable_signature_500_witness :
  b64decode rt_example (first_segment "A") = None ∧
  fill_pdf_form rt_example (post (wrap form_undecodable)) ∅
  = (Response (BodyText "Error processing signature") 500, ∅).
Proof.
  assert (Hd : b64decode rt_example (first_segment "A") = None)
    by (vm_compute; reflexivity).
  split; [exact Hd|].
  apply (undecodable_signature_500 rt_example
           {[ "body" := JDict form_undecodable ]} form_undecodable "A" []
           (Document [SourcePage 0; SourcePage 1] {[ "Text_1" := JStr "" ]})
           {[ "Text_1" := JStr "" ]} ∅);
    first [exact Hd | by_eval | vm_compute; reflexivity].
Defined.

(** ** Where the claims as stated fail *)

(** C2 as stated: signatureDate is a mapped field that is neither a
    checkbox nor a signature-metadata key, and its 41 characters are not
    cut to 40. *)
Lemma long_signature_date_not_cut :
  form_long_date !! "signatureDate" = Some (JStr long_date) ∧
  ("signatureDate" ∉ CHECKBOX_FIELDS) ∧
  ("signatureDate" ∉ SIGNATURE_KEYS) ∧
  FIELD_MAPPING !! "signatureDate" = Some (Text "Text_39") ∧
  String.length long_date = 41%nat ∧
  ∃ m, rendered_field_map rt_example form_long_date = Some m ∧
       m !! "Text_39" = Some (JStr long_date) ∧
       m !! "Text_39" ≠ Some (JStr (slice_to 40 long_date)).
Proof.
  split; [vm_compute; reflexivity|]. split; [by_eval|]. split; [by_eval|].
  split; [vm_compute; reflexivity|]. split; [vm_compute; reflexivity|].
  destruct (rendered_field_map_total rt_example form_long_date) as [m Hm].
  exists m. split; [exact Hm|].
  assert (Hd : m !! "Text_39" = Some (JStr long_date)).
  { rewrite (field_mapper_date _ _ _ _ Hm). vm_compute. reflexivity. }
  split; [exact Hd|]. rewrite Hd. vm_compute. intros [=].
Qed.

(** C3 as stated: the integer 10^30 under businessEmail is written as the
    30-character string of its first digits. *)
Lemma big_integer_email_becomes_string :
  form_big_email !! "businessEmail" = Some (JInt (10 ^ 30)) ∧
  is_str (JInt (10 ^ 30)) = false ∧
  ("businessEmail" ∉ CHECKBOX_FIELDS) ∧
  FIELD_MAPPING !! "businessEmail" = Some (Text "Text_9") ∧
  ∃ m, rendered_field_map rt_example form_big_email = Some m ∧
       m !! "Text_9" = Some (JStr "100000000000000000000000000000") ∧
       m !! "Text_9" ≠ Some (JInt (10 ^ 30)).
Proof.
  split; [vm_compute; reflexivity|]. split; [reflexivity|].
  split; [by_eval|]. split; [vm_compute; reflexivity|].
  eexists. split; [vm_compute; reflexivity|].
  split; [vm_compute; reflexivity|]. vm_compute. intros [=].
Qed.

(** C8 as stated: the payload "A" has the prefix and does not decode, and
    the status is 500, not 400. *)
Lemma undecodable_signature_not_400 :
  startswith "data:image/png;base64," "data:image/png;base64,A" = true ∧
  b64decode rt_example "A" = None ∧
  status (fill_pdf_form rt_example (post (wrap form_undecodable)) ∅).1
    = 500%Z ∧
  status (fill_pdf_form rt_example (post (wrap form_undecodable)) ∅).1
    ≠ 400%Z.
Proof.
  split; [reflexivity|]. split; [vm_compute; reflexivity|].
  split; [vm_compute; reflexivity|]. vm_compute. intros [=].
Qed.

Lemma annotation_written_witness :
  ({[ "body" := JDict form_example ]} : gmap string json) !! "body"
    = Some (JDict form_example) ∧
  form_example !! "signatureImageBase64"
    = Some (JStr ("data:image/png;base64," +:+ "iVBORw0K")) ∧
  ∃ pdf filled annotated height,
    (fill_pdf_form rt_example (post (wrap form_example)) ∅).1
      = Response (BodyPdf pdf) 200 ∧
    write_fillable_pdf rt_example filled
      {[ "Text_41" := JStr "Signed: 2026-11-04 | Hash: abc123" ]}
      = Some annotated ∧
    pages pdf
    = match pages annotated with
      | [] => []
      | first :: others =>
          MergedPage first (CanvasPage 50 50 350 height) :: others
      end.
Proof.
  assert (Hb : ({[ "body" := JDict form_example ]} : gmap string json)
               !! "body" = Some (JDict form_example))
    by (vm_compute; reflexivity).
  assert (Hs : form_example !! "signatureImageBase64"
               = Some (JStr ("data:image/png;base64," +:+ "iVBORw0K")))
    by (vm_compute; reflexivity).
  split; [exact Hb|]. split; [exact Hs|].
  destruct (annotation_written rt_example _ form_example "iVBORw0K" [] ∅
              Hb Hs) as (_ & _ & Hresp).
  assert (Hpdf : ∃ pdf,
            (fill_pdf_form rt_example (post (wrap form_example)) ∅).1
            = Response (BodyPdf pdf) 200) by (vm_compute; eauto).
  destruct Hpdf as [pdf Hpdf].
  destruct (Hresp pdf Hpdf)
    as (tpl & m & filled & annotated & height & _ & _ & _ & Hpages
        & Hwritten & _).
  destruct Hwritten as (text & [Htext _] & Hann);
    [right; vm_compute; reflexivity|].
  exists pdf, filled, annotated, height.
  split; [exact Hpdf|]. split; [|exact Hpages].
  assert (Ht : annotation_text rt_example
                 match form_example !! "signatureDate" with
                 | Some v => v
                 | None => JStr (strftime_ymd (now rt_example))
                 end
                 match form_example !! "signatureDataHash" with
                 | Some v => v
                 | None => JStr "N/A"
                 end
               = Some "Signed: 2026-11-04 | Hash: abc123")
    by (vm_compute; reflexivity).
  rewrite Ht in Htext. injection Htext as <-. exact Hann.
Defined.

(** ** More on the field mapper *)

Section MapperMore.
Variable rt : Runtime.
Implicit Types (form acc m : gmap string json).
Implicit Types (items : list (string * json)) (k t : string) (v w : json).

(** Whatever the text loop leaves under [t] was there before or was
    written for an item of the input. *)
Lemma text_loop_lookup_inv items acc m t w :
  text_loop rt items acc = Some m → m !! t = Some w →
  acc !! t = Some w ∨
  ∃ k v, (k, v) ∈ items ∧ writes k t ∧ w = truncate_value rt k v.
Proof.
  revert acc. induction items as [|[k0 v0] rest IH]; intros acc; simpl.
  - intros [= <-] Hw. by left.
  - destruct (text_step rt acc (k0, v0)) as [acc'|] eqn:Hstep; [|done].
    intros Hloop Hw.
    destruct (IH _ Hloop Hw) as [Hacc'|(k & v & Hin & Hwr & ->)].
    + destruct (decide (writes k0 t)) as [Hwr|Hwr].
      * right. exists k0, v0. split; [by left|]. split; [done|].
        rewrite (text_step_written rt _ _ _ _ _ Hstep Hwr) in Hacc'.
        by injection Hacc'.
      * left. by rewrite <- (text_step_frame rt _ _ _ _ _ Hstep Hwr).
    + right. exists k, v. split; [by right|done].
Qed.

Lemma checkbox_loop_lookup_inv form cbs acc m t w :
  checkbox_loop rt form cbs acc = Some m → m !! t = Some w →
  acc !! t = Some w ∨
  ∃ cb tg, cb ∈ cbs ∧ is_Some (form !! cb) ∧
           FIELD_MAPPING !! cb = Some tg ∧ t ∈ targets_of tg ∧
           (w = JStr "Yes" ∨ w = JStr "Off").
Proof.
  revert acc. induction cbs as [|c rest IH]; intros acc; simpl.
  - intros [= <-] Hw. by left.
  - destruct (checkbox_step rt form acc c) as [acc'|] eqn:Hstep; [|done].
    intros Hloop Hw.
    destruct (IH _ Hloop Hw) as [Hacc'|(cb & tg & Hin & Hrest)].
    + unfold checkbox_step in Hstep.
      destruct (form !! c) as [v|] eqn:Hv; [|injection Hstep as <-; by left].
      destruct (FIELD_MAPPING !! c) as [[t'|y n]|] eqn:Hc;
        [done| |injection Hstep as <-; by left].
      injection Hstep as <-.
      destruct (decide (t = n)) as [->|Hn].
      { right. exists c, (Pair y n). split; [by left|].
        split; [eauto|]. split; [done|].
        split; [apply list_elem_of_further, list_elem_of_here|].
        rewrite lookup_insert_eq in Hacc'. injection Hacc' as <-.
        destruct (is_yes rt v); simpl; eauto. }
      rewrite lookup_insert_ne in Hacc' by done.
      destruct (decide (t = y)) as [->|Hy].
      { right. exists c, (Pair y n). split; [by left|].
        split; [eauto|]. split; [done|]. split; [apply list_elem_of_here|].
        rewrite lookup_insert_eq in Hacc'. injection Hacc' as <-.
        destruct (is_yes rt v); simpl; eauto. }
      rewrite lookup_insert_ne in Hacc' by done. by left.
    + right. exists cb, tg. split; [by right|done].
Qed.

(** Where an entry of the mapper's result comes from. *)
Lemma field_mapper_lookup_inv form d m t w :
  field_mapper rt form d = Some m → m !! t = Some w →
  (t = "Text_39" ∧ w = d) ∨
  (∃ k v, form !! k = Some v ∧ writes k t ∧ w = truncate_value rt k v) ∨
  (∃ cb tg, cb ∈ CHECKBOX_FIELDS ∧ is_Some (form !! cb) ∧
            FIELD_MAPPING !! cb = Some tg ∧ t ∈ targets_of tg ∧
            (w = JStr "Yes" ∨ w = JStr "Off")).
Proof.
  unfold field_mapper. intros Hm Hw.
  destruct (text_loop rt (map_to_list form) ∅) as [texts|] eqn:Ht; [|done].
  destruct (checkbox_loop rt form CHECKBOX_FIELDS texts)
    as [checked|] eqn:Hc; [|done].
  rewrite date_step_eq in Hm. injection Hm as <-.
  destruct (decide (t = "Text_39")) as [->|Hne].
  { left. rewrite lookup_insert_eq in Hw. by injection Hw. }
  rewrite lookup_insert_ne in Hw by done. right.
  destruct (checkbox_loop_lookup_inv _ _ _ _ _ _ Hc Hw) as [Htexts|Hcb];
    [|by right].
  left.
  destruct (text_loop_lookup_inv _ _ _ _ _ Ht Htexts)
    as [Hempty|(k & v & Hin & Hwr & ->)]; [by rewrite lookup_empty in Hempty|].
  exists k, v. by rewrite <- elem_of_map_to_list.
Qed.

(** X1. Every template field set in the rendered map is a target, in
    [FIELD_MAPPING], of signatureDate or of a logical field that is present
    in the input: the mapper writes no field of its own invention and none
    for an absent input field. *)
Theorem rendered_keys_come_from_input form :
  ∃ m, rendered_field_map rt form = Some m ∧
    ∀ t, is_Some (m !! t) →
      ∃ k tg, FIELD_MAPPING !! k = Some tg ∧ t ∈ targets_of tg ∧
              (k = "signatureDate" ∨ is_Some (form !! k)).
Proof.
  destruct (rendered_field_map_total rt form) as [m Hm].
  exists m. split; [done|]. intros t [w Hw].
  destruct (field_mapper_lookup_inv _ _ _ _ _ Hm Hw)
    as [[-> _]|[(k & v & Hv & [_ Hk] & _)|(cb & tg & _ & Hv & Hk & Ht & _)]].
  - exists "signatureDate", (Text "Text_39").
    split; [apply signatureDate_mapping|].
    split; [apply list_elem_of_here|by left].
  - exists k, (Text t). split; [done|]. split; [apply list_elem_of_here|].
    right. eauto.
  - exists cb, tg. eauto.
Qed.

(** X2. A mapped logical field other than signatureDate that is absent
    from the input leaves its template field, or both fields of its
    checkbox pair, unset. *)
Theorem absent_field_unset form k tg t :
  form !! k = None → k ≠ "signatureDate" →
  FIELD_MAPPING !! k = Some tg → t ∈ targets_of tg →
  ∃ m, rendered_field_map rt form = Some m ∧ m !! t = None.
Proof.
  intros Habs Hdate Hk Ht.
  destruct (rendered_field_map_total rt form) as [m Hm].
  exists m. split; [done|].
  destruct (m !! t) as [w|] eqn:Hw; [|done]. exfalso.
  destruct (field_mapper_lookup_inv _ _ _ _ _ Hm Hw)
    as [[-> _]|[(k' & v & Hv & [_ Hk'] & _)|(cb & tg' & _ & [v Hv] & Hk' & Ht' & _)]].
  - apply Hdate.
    apply (target_inj k "signatureDate" _ _ "Text_39" Hk signatureDate_mapping);
      [done|apply list_elem_of_here].
  - assert (k = k') as <-
      by (apply (target_inj k k' _ _ t Hk Hk'); [done|apply list_elem_of_here]).
    congruence.
  - assert (k = cb) as <- by by apply (target_inj k cb _ _ t Hk Hk').
    congruence.
Qed.

Lemma truncate_value_bound k v s :
  truncate_value rt k v = JStr s → (String.length s ≤ field_cap k)%nat.
Proof.
  unfold truncate_value, field_cap.
  destruct (bool_decide_reflect (k = "businessEmail")) as [->|He]; simpl.
  - destruct (30 <? String.length (py_str rt v))%nat eqn:H30.
    + intros [= <-]. rewrite slice_to_length. lia.
    + apply Nat.ltb_ge in H30. destruct v; try done. simpl in H30.
      destruct (40 <? String.length s0)%nat eqn:H40.
      * apply Nat.ltb_lt in H40. lia.
      * by intros [= <-].
  - destruct (bool_decide_reflect (k = "businessType")) as [->|Ht]; simpl.
    + destruct (35 <? String.length (py_str rt v))%nat eqn:H35.
      * intros [= <-]. rewrite slice_to_length. lia.
      * apply Nat.ltb_ge in H35. destruct v; try done. simpl in H35.
        destruct (40 <? String.length s0)%nat eqn:H40.
        -- apply Nat.ltb_lt in H40. lia.
        -- by intros [= <-].
    + destruct v; try done.
      destruct (40 <? String.length s0)%nat eqn:H40.
      * intros [= <-]. rewrite slice_to_length. lia.
      * apply Nat.ltb_ge in H40. by intros [= <-].
Qed.

Lemma field_cap_le_40 k : (field_cap k ≤ 40)%nat.
Proof. unfold field_cap. repeat case_bool_decide; lia. Qed.

(** X3. Apart from the signature date, no string of more than 40
    characters reaches a template field: every string in the rendered map
    under a field other than Text_39 has at most 40 characters. *)
Theorem rendered_strings_bounded form :
  ∃ m, rendered_field_map rt form = Some m ∧
    ∀ t s, t ≠ "Text_39" → m !! t = Some (JStr s) →
      (String.length s ≤ 40)%nat.
Proof.
  destruct (rendered_field_map_total rt form) as [m Hm].
  exists m. split; [done|]. intros t s Hne Hs.
  destruct (field_mapper_lookup_inv _ _ _ _ _ Hm Hs)
    as [[-> _]|[(k & v & _ & _ & Htr)|(_ & _ & _ & _ & _ & _ & [Hy|Hy])]].
  - done.
  - symmetry in Htr. apply truncate_value_bound in Htr.
    pose proof (field_cap_le_40 k). lia.
  - injection Hy as ->. simpl. lia.
  - injection Hy as ->. simpl. lia.
Qed.

Lemma truncate_value_keeps_non_string k v :
  is_str (truncate_value rt k v) = false → truncate_value rt k v = v.
Proof.
  unfold truncate_value.
  destruct (bool_decide (k = "businessEmail")
            && (30 <? String.length (py_str rt v))%nat); [done|].
  destruct (bool_decide (k = "businessType")
            && (35 <? String.length (py_str rt v))%nat); [done|].
  destruct v; try done.
  by destruct (40 <? String.length s)%nat.
Qed.

(** X4. Truncation is idempotent: a value that went through lines 268-278
    once is not changed by going through them again, for every field name
    and every JSON value. *)
Theorem truncate_value_idempotent k v :
  truncate_value rt k (truncate_value rt k v) = truncate_value rt k v.
Proof.
  destruct (is_str (truncate_value rt k v)) eqn:Hs.
  - destruct (truncate_value rt k v) as [| | | |s| |] eqn:Hw; try done.
    apply truncate_value_bound in Hw.
    by rewrite truncate_value_str, slice_to_all.
  - pose proof (truncate_value_keeps_non_string k v Hs) as Hv.
    rewrite Hv. exact Hv.
Qed.

Lemma signature_keys_unmapped k :
  k ∈ SIGNATURE_KEYS → FIELD_MAPPING !! k = None ∧ k ≠ "signatureDate".
Proof.
  intros Hk. repeat (apply elem_of_cons in Hk as [->|Hk]);
    [split; [vm_compute; reflexivity|done]..|by apply elem_of_nil in Hk].
Qed.

(** X5. The rendered field map does not depend on the signature image or
    on the signature hash: setting either key to any value leaves it as it
    is. *)
Theorem rendered_ignores_signature form v :
  rendered_field_map rt (<["signatureImageBase64" := v]> form)
    = rendered_field_map rt form ∧
  rendered_field_map rt (<["signatureDataHash" := v]> form)
    = rendered_field_map rt form.
Proof.
  assert (H : ∀ k, k ∈ SIGNATURE_KEYS →
            rendered_field_map rt (<[k := v]> form)
            = rendered_field_map rt form).
  { intros k [Hk Hd]%signature_keys_unmapped. unfold rendered_field_map.
    rewrite <- (resolve_date_delete rt (<[k:=v]> form) k Hd).
    rewrite <- (field_mapper_delete rt (<[k:=v]> form) _ k Hk).
    rewrite delete_insert_eq.
    by rewrite resolve_date_delete, field_mapper_delete. }
  split; apply H.
  - apply list_elem_of_here.
  - apply list_elem_of_further, list_elem_of_here.
Qed.
End MapperMore.

(** ** Checkbox values that are integers *)

Lemma pretty_N_char_digit (n : N) : digit_or_dash (pretty_N_char n) = true.
Proof. unfold pretty_N_char. by repeat case_match. Qed.

Lemma pretty_N_go_digits (x : N) (s : string) :
  all_digit_or_dash s = true → all_digit_or_dash (pretty_N_go x s) = true.
Proof.
  revert s. induction (N.lt_wf_0 x) as [x _ IH]; intros s Hs.
  destruct (decide (x = 0)%N) as [->|Hx]; [by rewrite pretty_N_go_0|].
  rewrite pretty_N_go_step by lia. apply IH.
  - apply N.div_lt; lia.
  - cbn [all_digit_or_dash]. by rewrite pretty_N_char_digit, Hs.
Qed.

Lemma pretty_Z_digits (z : Z) : all_digit_or_dash (pretty z) = true.
Proof.
  assert (HN : ∀ n : N, all_digit_or_dash (pretty n) = true).
  { intros n. unfold pretty, pretty_N. case_decide; [done|].
    by apply pretty_N_go_digits. }
  destruct z as [|p|p]; [done|apply (HN (Npos p))|].
  change (pretty (Zneg p)) with (String "-" (pretty (Npos p))).
  cbn [all_digit_or_dash]. by rewrite (HN (Npos p)).
Qed.

Lemma lower_ascii_digit (c : ascii) :
  digit_or_dash c = true → lower_ascii c = c.
Proof.
  unfold digit_or_dash, lower_ascii. intros Hc.
  destruct (65 <=? nat_of_ascii c)%nat eqn:H65; [|done].
  apply Nat.leb_le in H65.
  apply orb_true_iff in Hc as [[_ H57]%andb_true_iff|H45].
  - apply Nat.leb_le in H57. lia.
  - apply Nat.eqb_eq in H45. lia.
Qed.

Lemma lower_digits (s : string) : all_digit_or_dash s = true → lower s = s.
Proof.
  induction s as [|c r IH]; [done|]. cbn [all_digit_or_dash lower].
  intros [Hc Hr]%andb_true_iff. by rewrite lower_ascii_digit, IH.
Qed.

(** X6. An integer value of a checkbox field counts as yes exactly when it
    is 1: every other integer, 0 and 2 and the negative ones alike, ticks
    the no-target. *)
Theorem is_yes_integer (rt : Runtime) (z : Z) :
  is_yes rt (JInt z) = true ↔ z = 1%Z.
Proof.
  unfold is_yes. cbn [py_str]. rewrite bool_decide_eq_true.
  rewrite (lower_digits _ (pretty_Z_digits z)). split.
  - intros Hin. pose proof (pretty_Z_digits z) as Hd.
    repeat (apply elem_of_cons in Hin as [Heq|Hin]);
      try (by rewrite Heq in Hd); [|by apply elem_of_nil in Hin].
    by apply (inj pretty).
  - intros ->. apply list_elem_of_further, list_elem_of_further.
    apply list_elem_of_here.
Qed.

(** ** The annotation text *)

Lemma string_app_assoc (a b c : string) : (a +:+ b) +:+ c = a +:+ b +:+ c.
Proof.
  induction a as [|x a IH]; [done|].
  change (String x ((a +:+ b) +:+ c) = String x (a +:+ b +:+ c)).
  by rewrite IH.
Qed.

(** X7. The annotation of lines 315-322 is "Signed: <date> | Hash: <hash>"
    when both values are truthy, only the clause of the truthy one when the
    other is falsy, with no separator, and it is not written when both are
    falsy. *)
Theorem annotation_text_shape (rt : Runtime) (signature_date signature_hash : json) :
  annotation_text rt signature_date signature_hash
  = match truthy signature_date, truthy signature_hash with
    | true, true =>
        Some ("Signed: " +:+ py_str rt signature_date
              +:+ " | Hash: " +:+ py_str rt signature_hash)
    | true, false => Some ("Signed: " +:+ py_str rt signature_date)
    | false, true => Some ("Hash: " +:+ py_str rt signature_hash)
    | false, false => None
    end.
Proof.
  unfold annotation_text.
  destruct (truthy signature_date), (truthy signature_hash); try done.
  cbn [orb]. f_equal.
  change (negb (String.eqb ("" +:+ "Signed: " +:+ py_str rt signature_date) ""))
    with true. cbv iota.
  change ("" +:+ "Signed: " +:+ py_str rt signature_date)
    with ("Signed: " +:+ py_str rt signature_date).
  by rewrite !string_app_assoc.
Qed.

(** ** The text handed to the decoder *)

Lemma split_on_comma (cur a b : string) :
  has_comma a = false →
  split_on "," cur (a +:+ "," +:+ b) = (cur +:+ a) :: split_on "," "" b.
Proof.
  revert cur. induction a as [|c r IH]; intros cur Hc.
  - change ("" +:+ "," +:+ b) with (String "," b). cbn [split_on].
    change (Ascii.eqb "," ",") with true. cbv iota.
    by rewrite append_nil_r.
  - cbn [has_comma] in Hc. apply orb_false_iff in Hc as [Hc Hr].
    change (String c r +:+ "," +:+ b) with (String c (r +:+ "," +:+ b)).
    cbn [split_on]. rewrite Hc, (IH _ Hr). f_equal. apply append_snoc.
Qed.

Lemma first_segment_comma (a b : string) :
  has_comma a = false → first_segment (a +:+ "," +:+ b) = a.
Proof.
  intros Hc. unfold first_segment, split_comma.
  by rewrite split_on_comma.
Qed.

(** X8. Only the text between the prefix and the next comma is decoded: a
    signature with a second comma is handled, from line 227 on, exactly as
    the signature cut before that comma. *)
Theorem process_ignores_after_comma (rt : Runtime) (a b : string)
    (form_fields : gmap string json) (signature_hash signature_date : json)
    (fs : gmap string file) :
  has_comma a = false →
  process rt form_fields ("data:image/png;base64," +:+ a +:+ "," +:+ b)
    signature_hash signature_date fs
  = process rt form_fields ("data:image/png;base64," +:+ a)
      signature_hash signature_date fs.
Proof.
  intros Hc.
  assert (Hs : save_signature rt ("data:image/png;base64," +:+ a +:+ "," +:+ b) fs
               = save_signature rt ("data:image/png;base64," +:+ a) fs).
  { unfold save_signature. rewrite !split_comma_signature.
    by rewrite first_segment_comma, first_segment_no_comma. }
  unfold process. by rewrite Hs.
Qed.

(** ** More on the signature compositor *)

(** X9. With the target page index inside the document the merged page
    comes first in the output, followed by all other pages in their
    original order and unchanged, so the page count is kept; an overlay
    document without a page raises. *)
Theorem merge_in_range (pre suf : list page) (p overlay : page)
    (overlays : list page) :
  assemble_pages (Z.of_nat (length pre)) (pre ++ p :: suf)
    (overlay :: overlays)
  = Some (MergedPage p overlay :: pre ++ suf) ∧
  length (MergedPage p overlay :: pre ++ suf) = length (pre ++ p :: suf) ∧
  assemble_pages (Z.of_nat (length pre)) (pre ++ p :: suf) [] = None.
Proof.
  split; [apply assemble_pages_in_range|]. split.
  - cbn [length]. rewrite !length_app. cbn [length]. lia.
  - unfold assemble_pages.
    assert (Hin : (0 <=? Z.of_nat (length pre))%Z
                  && (Z.of_nat (length pre)
                      <? Z.of_nat (length (pre ++ p :: suf)))%Z = true).
    { apply andb_true_iff. split; [apply Z.leb_le; lia|].
      apply Z.ltb_lt. rewrite length_app. cbn [length]. lia. }
    by rewrite Hin, Nat2Z.id, list_lookup_middle.
Qed.

Section CompositorMore.
Variable rt : Runtime.

(** X10. When [add_signature_to_pdf] succeeds, it has read a document from
    the input path and written one to the output path and changed no other
    file; the written document has the first page of the input merged with
    a canvas at x = 50, y = 50 of width 350 and the remaining pages as they
    were, and an input without pages gives an output without pages. *)
Theorem add_signature_to_pdf_result (fs fs' : gmap string file)
    (input_pdf_path output_pdf_path signature_image_path : string) :
  add_signature_to_pdf rt fs input_pdf_path output_pdf_path
    signature_image_path = Some fs' →
  ∃ template_pdf output_pdf height,
    fs !! input_pdf_path = Some (FilePdf template_pdf) ∧
    fs' = <[output_pdf_path := FilePdf output_pdf]> fs ∧
    pages output_pdf
    = match pages template_pdf with
      | [] => []
      | first :: others =>
          MergedPage first (CanvasPage 50 50 350 height) :: others
      end.
Proof.
  unfold add_signature_to_pdf. intros Ha.
  destruct (fs !! input_pdf_path) as [[|template_pdf]|]; try done.
  destruct (fs !! signature_image_path) as [[bytes|]|]; try done.
  destruct (image_open rt bytes) as [[w h]|]; [|done]. cbn in Ha.
  destruct (overlay_height rt w h) as [height|]; [|done]. cbn in Ha.
  destruct (pages template_pdf) as [|first others] eqn:Hp.
  - cbn in Ha. destruct (can_write rt output_pdf_path); [|done].
    injection Ha as <-. eexists template_pdf, _, height.
    split; [done|]. split; [done|]. by rewrite Hp.
  - change (sp_page SIGNATURE_POSITION) with (Z.of_nat (length (@nil page)))
      in Ha.
    change (first :: others) with ([] ++ first :: others)%list in Ha.
    rewrite (assemble_pages_in_range [] others first _ []) in Ha. cbn in Ha.
    destruct (can_write rt output_pdf_path); [|done].
    injection Ha as <-. eexists template_pdf, _, height.
    split; [done|]. split; [done|]. by rewrite Hp.
Qed.

Lemma assemble_pages_canvas (page_idx : Z) (template_pages : list page)
    (canvas : page) :
  is_Some (assemble_pages page_idx template_pages [canvas]).
Proof.
  unfold assemble_pages.
  destruct ((0 <=? page_idx)%Z
            && (page_idx <? Z.of_nat (length template_pages))%Z) eqn:Hin;
    [|eauto].
  apply andb_true_iff in Hin as [H0%Z.leb_le Hn%Z.ltb_lt].
  destruct (lookup_lt_is_Some_2 template_pages (Z.to_nat page_idx))
    as [p ->]; [lia|]. cbn. eauto.
Qed.
End CompositorMore.

(** ** More on the request handler *)

Lemma cleanup_lookup (paths : list string) (fs : gmap string file)
    (p : string) :
  cleanup paths fs !! p = if decide (p ∈ paths) then None else fs !! p.
Proof.
  unfold cleanup. revert fs.
  induction paths as [|q paths IH]; intros fs; cbn [foldl].
  - by rewrite decide_False by apply not_elem_of_nil.
  - rewrite IH.
    assert (Hq : ∀ r, r ≠ q →
              (if bool_decide (is_Some (fs !! q)) then delete q fs else fs)
                !! r = fs !! r).
    { intros r Hr. case_bool_decide; [by rewrite lookup_delete_ne|done]. }
    assert (Hqq : (if bool_decide (is_Some (fs !! q)) then delete q fs else fs)
                    !! q = None).
    { case_bool_decide as Hs; [apply lookup_delete_eq|].
      by apply eq_None_not_Some. }
    destruct (decide (p ∈ paths)) as [Hin|Hin].
    + by rewrite decide_True by by right.
    + destruct (decide (p = q)) as [->|Hne].
      * rewrite decide_True by by left. done.
      * rewrite decide_False by (by intros [?|?]%elem_of_cons). by apply Hq.
Qed.

Section HandlerMore.
Variable rt : Runtime.
Implicit Types (fs : gmap string file) (form : gmap string json).

Lemma save_signature_frame signature fs fs1 p :
  save_signature rt signature fs = Some fs1 →
  p ≠ temp_signature_path → fs1 !! p = fs !! p.
Proof.
  unfold save_signature. intros Hs Hp.
  destruct (split_comma signature !! 1%nat) as [data|]; [|done]. cbn in Hs.
  destruct (b64decode rt data) as [bytes|]; [|done]. cbn in Hs.
  destruct (can_write rt temp_signature_path); [|done].
  injection Hs as <-. by rewrite lookup_insert_ne.
Qed.

Lemma fill_and_sign_frame pdf_form_data d h fs ok fs' p :
  fill_and_sign rt pdf_form_data d h fs = (ok, fs') →
  p ∉ temp_files rt → fs' !! p = fs !! p.
Proof.
  unfold fill_and_sign, temp_files. intros Hf Hp.
  assert (Hp1 : p ≠ temp_filled_pdf_path rt) by set_solver.
  assert (Hp2 : p ≠ output_pdf_path rt) by set_solver.
  destruct (fill_file rt (template rt) _ pdf_form_data fs)
    as [fs1|] eqn:H1; [|by injection Hf as <- <-].
  pose proof (fill_file_frame rt _ _ _ _ _ p H1 Hp1) as E1.
  destruct (annotation_text rt d h) as [text|].
  - destruct (fill_file rt (read_pdf fs1 _) _ _ fs1) as [fs2|] eqn:H2;
      [|by injection Hf as <- <-].
    pose proof (fill_file_frame rt _ _ _ _ _ p H2 Hp1) as E2.
    destruct (add_signature_to_pdf rt fs2 _ _ _) as [fs3|] eqn:H3;
      injection Hf as <- <-; [|congruence].
    rewrite (add_signature_frame rt _ _ _ _ _ p H3 Hp2). congruence.
  - destruct (add_signature_to_pdf rt fs1 _ _ _) as [fs3|] eqn:H3;
      injection Hf as <- <-; [|congruence].
    rewrite (add_signature_frame rt _ _ _ _ _ p H3 Hp2). congruence.
Qed.

(** What [process] can answer, and what it does to the files. *)
Lemma process_cases form signature h d fs :
  let r := process rt form signature h d fs in
  (∀ p, p ∉ temp_files rt → r.2 !! p = fs !! p) ∧
  ((∃ message, r.1 = Response (BodyText message) 500) ∨
   (∃ pdf, r.1 = Response (BodyPdf pdf) 200 ∧
           ∀ p, p ∈ temp_files rt → r.2 !! p = None)).
Proof.
  cbv zeta. unfold process.
  destruct (template rt) as [template_pdf|]; [|split; eauto].
  destruct (get_form_fields rt template_pdf) as [af|]; [|split; eauto].
  case_bool_decide; [split; eauto|].
  destruct (save_signature rt signature fs) as [fs1|] eqn:Hs;
    [|split; eauto].
  assert (Hf1 : ∀ p, p ∉ temp_files rt → fs1 !! p = fs !! p).
  { intros p Hp. apply (save_signature_frame _ _ _ _ Hs).
    unfold temp_files in Hp. set_solver. }
  destruct (field_mapper rt form d) as [pdf_form_data|].
  2:{ unfold unexpected_error. cbn [fst snd]. split; [|eauto].
      intros p Hp. rewrite cleanup_lookup, decide_False by done. by apply Hf1. }
  destruct (fill_and_sign rt pdf_form_data d h fs1) as [[|] fs2] eqn:Hfill.
  - assert (Hf2 : ∀ p, p ∉ temp_files rt → fs2 !! p = fs !! p).
    { intros p Hp. rewrite (fill_and_sign_frame _ _ _ _ _ _ p Hfill Hp).
      by apply Hf1. }
    destruct (if can_read rt (output_pdf_path rt)
              then read_pdf fs2 (output_pdf_path rt) else None)
      as [pdf|]; cbn [fst snd].
    + split.
      * intros p Hp. rewrite cleanup_lookup, decide_False by done.
        by apply Hf2.
      * right. exists pdf. split; [done|].
        intros p Hp. by rewrite cleanup_lookup, decide_True.
    + split; [|eauto].
      intros p Hp. rewrite cleanup_lookup, decide_False by done. by apply Hf2.
  - cbn [fst snd]. split; [|eauto].
    intros p Hp. rewrite (fill_and_sign_frame _ _ _ _ _ _ p Hfill Hp).
    by apply Hf1.
Qed.

(** The same for the whole handler: the answers before [process] are 400,
    405 or 500 and leave the files alone. *)
Lemma fill_pdf_form_cases req fs :
  let r := fill_pdf_form rt req fs in
  (∀ p, p ∉ temp_files rt → r.2 !! p = fs !! p) ∧
  ((∃ message code, r.1 = Response (BodyText message) code ∧
                    (code = 400 ∨ code = 405)%Z ∧ r.2 = fs) ∨
   (∃ message, r.1 = Response (BodyText message) 500) ∨
   (∃ pdf, r.1 = Response (BodyPdf pdf) 200 ∧
           ∀ p, p ∈ temp_files rt → r.2 !! p = None)).
Proof.
  cbv zeta. unfold fill_pdf_form.
  destruct (negb (String.eqb (method req) "POST")).
  { split; [done|]. left. eauto 10. }
  destruct (get_json req) as [[| | | | |[|data rest]|]|];
    try (split; [done|]; left; eauto 10).
  unfold handle_data, unexpected_error.
  destruct (py_in_body data) as [[|]|];
    [|split; [done|]; left; eauto 10|split; [done|]; right; left; eauto].
  destruct (py_get data "body" (JDict ∅)) as [[| | | | | |form]|];
    try (split; [done|]; right; left; eauto).
  destruct (default (JStr "") (form !! "signatureImageBase64"))
    as [| | | |signature| |];
    try (split; [done|]; right; left; eauto).
  destruct (negb (startswith "data:image/png;base64," signature)).
  { split; [done|]. left. eauto 10. }
  destruct (process_cases form signature (resolve_hash form)
              (resolve_date rt form) fs) as [Hframe Hres].
  split; [done|]. right. exact Hres.
Qed.

(** X11. The handler answers with status 200, 400, 405 or 500 and nothing
    else, and the body is a PDF exactly when the status is 200: there is no
    success without a document and no document with an error status. *)
Theorem handler_statuses req fs :
  let r := (fill_pdf_form rt req fs).1 in
  (status r = 200 ∨ status r = 400 ∨ status r = 405 ∨ status r = 500)%Z ∧
  (status r = 200%Z ↔ ∃ pdf, resp_body r = BodyPdf pdf).
Proof.
  cbv zeta.
  destruct (fill_pdf_form_cases req fs)
    as [_ [(msg & code & -> & [->| ->] & _)|[(msg & ->)|(pdf & -> & _)]]];
    cbn [status resp_body];
    (split; [lia|]); split; try done; try (by intros [? [=]]); eauto.
Qed.

(** X12. A request answered with 400 or 405 changes no file. *)
Theorem client_error_writes_nothing req fs :
  (status (fill_pdf_form rt req fs).1 = 400 ∨
   status (fill_pdf_form rt req fs).1 = 405)%Z →
  (fill_pdf_form rt req fs).2 = fs.
Proof.
  destruct (fill_pdf_form_cases req fs)
    as [_ [(msg & code & -> & _ & Hfs)|[(msg & ->)|(pdf & -> & _)]]];
    cbn [status]; [done|intros [[=]|[=]]..].
Qed.

(** X13. Whatever the request and however it ends, the handler changes no
    file other than its three scratch paths. *)
Theorem handler_touches_only_scratch req fs p :
  p ∉ temp_files rt → (fill_pdf_form rt req fs).2 !! p = fs !! p.
Proof. apply (fill_pdf_form_cases req fs). Qed.

(** X14. After a request answered with 200 none of the three scratch paths
    exists, also when one of them was there before the request (the
    signature image has a fixed name), and every other file is as it
    was. *)
Theorem success_leaves_no_scratch req fs p :
  status (fill_pdf_form rt req fs).1 = 200%Z →
  (fill_pdf_form rt req fs).2 !! p
  = if decide (p ∈ temp_files rt) then None else fs !! p.
Proof.
  destruct (fill_pdf_form_cases req fs)
    as [Hframe [(msg & code & Hr & [->| ->] & _)|[(msg & Hr)|(pdf & Hr & Hgone)]]];
    rewrite Hr; cbn [status]; try done.
  intros _. case_decide; [by apply Hgone|by apply Hframe].
Qed.
End HandlerMore.

(** ** Requests a healthy runtime answers with a document *)

Section HealthyRuntime.
Variable rt : Runtime.
Implicit Types (fs : gmap string file) (form : gmap string json).

Lemma signature_path_not_filled :
  temp_filled_pdf_path rt ≠ temp_signature_path.
Proof. intros [=]. Qed.

Lemma fill_and_sign_healthy pdf_form_data d h fs bytes w height_px :
  healthy rt →
  fs !! temp_signature_path = Some (FileBytes bytes) →
  image_open rt bytes = Some (w, height_px) →
  of_int rt w ≠ Qc_of_Z 0 →
  ∃ fs' pdf, fill_and_sign rt pdf_form_data d h fs = (true, fs') ∧
             fs' !! output_pdf_path rt = Some (FilePdf pdf).
Proof.
  intros (tpl & af & Ht & _ & _ & Hengine & Hwrite & _) Hsig Himg Hw.
  assert (Hadd : ∀ fs2 filled,
            fs2 !! temp_filled_pdf_path rt = Some (FilePdf filled) →
            fs2 !! temp_signature_path = Some (FileBytes bytes) →
            ∃ fs3 pdf,
              add_signature_to_pdf rt fs2 (temp_filled_pdf_path rt)
                (output_pdf_path rt) temp_signature_path = Some fs3 ∧
              fs3 !! output_pdf_path rt = Some (FilePdf pdf)).
  { intros fs2 filled Hf Hs. unfold add_signature_to_pdf.
    rewrite Hf, Hs, Himg. cbn.
    unfold overlay_height. rewrite bool_decide_eq_false_2 by done. cbn.
    match goal with
    | |- context [assemble_pages ?i ?p [?c]] =>
        destruct (assemble_pages_canvas i p c) as [out Hout]
    end.
    rewrite Hout. cbn [mbind option_bind].
    rewrite (Hwrite (output_pdf_path rt)).
    eexists _, _. split; [done|]. apply lookup_insert_eq. }
  unfold fill_and_sign, fill_file. rewrite Ht. cbn [mbind option_bind].
  destruct (Hengine tpl pdf_form_data) as [filled ->].
  cbn [mbind option_bind]. rewrite (Hwrite (temp_filled_pdf_path rt)).
  destruct (annotation_text rt d h) as [text|].
  - unfold read_pdf. rewrite lookup_insert_eq. cbn [mbind option_bind].
    destruct (Hengine filled {[ "Text_41" := JStr text ]}) as [filled2 ->].
    cbn [mbind option_bind].
    destruct (Hadd (<[temp_filled_pdf_path rt := FilePdf filled2]>
                      (<[temp_filled_pdf_path rt := FilePdf filled]> fs))
                filled2) as (fs3 & pdf & -> & Hpdf).
    + apply lookup_insert_eq.
    + rewrite !lookup_insert_ne by apply signature_path_not_filled. done.
    + eauto.
  - destruct (Hadd (<[temp_filled_pdf_path rt := FilePdf filled]> fs) filled)
      as (fs3 & pdf & -> & Hpdf).
    + apply lookup_insert_eq.
    + rewrite lookup_insert_ne by apply signature_path_not_filled. done.
    + eauto.
Qed.

(** X15. With a healthy runtime, a POST whose first element is an object
    with a body whose signature has the prefix, decodes, and opens as an
    image of non-zero width is answered with status 200 and a PDF,
    whatever the other fields of the body are. *)
Theorem healthy_request_200 d form payload rest bytes w height_px fs :
  healthy rt →
  d !! "body" = Some (JDict form) →
  form !! "signatureImageBase64"
    = Some (JStr ("data:image/png;base64," +:+ payload)) →
  b64decode rt (first_segment payload) = Some bytes →
  image_open rt bytes = Some (w, height_px) →
  of_int rt w ≠ Qc_of_Z 0 →
  ∃ pdf, (fill_pdf_form rt (post (JList (JDict d :: rest))) fs).1
         = Response (BodyPdf pdf) 200.
Proof.
  intros Hrt Hb Hsig Hdec Himg Hw.
  pose proof Hrt as (tpl & af & Ht & Hf & Hne & _ & Hwrite & Hread).
  unfold fill_pdf_form, handle_data. cbn. rewrite Hb. cbn. rewrite Hsig. cbn.
  unfold process. rewrite Ht, Hf.
  rewrite bool_decide_eq_false_2 by done.
  unfold save_signature. rewrite split_comma_signature.
  cbn [mbind option_bind]. rewrite Hdec. cbn [mbind option_bind].
  rewrite (Hwrite temp_signature_path).
  destruct (field_mapper_total rt form (resolve_date rt form)) as [m ->].
  destruct (fill_and_sign_healthy m (resolve_date rt form)
              (resolve_hash form)
              (<[temp_signature_path := FileBytes bytes]> fs)
              bytes w height_px Hrt (lookup_insert_eq _ _ _) Himg Hw)
    as (fs' & pdf & -> & Hpdf).
  rewrite (Hread (output_pdf_path rt)). unfold read_pdf. rewrite Hpdf.
  by exists pdf.
Qed.
End HealthyRuntime.

(** ** Requests that are turned away *)

Section Rejections.
Variable rt : Runtime.
Implicit Types (fs : gmap string file) (form : gmap string json).

(** X16. A body without the signature key, or with a signature string that
    lacks the prefix, is answered with status 400 and the message of line
    225, and no file is written. *)
Theorem missing_signature_400 d form rest fs :
  d !! "body" = Some (JDict form) →
  (form !! "signatureImageBase64" = None ∨
   ∃ s, form !! "signatureImageBase64" = Some (JStr s) ∧
        startswith "data:image/png;base64," s = false) →
  fill_pdf_form rt (post (JList (JDict d :: rest))) fs
  = (Response
       (BodyText "Invalid signature format: Expected 'data:image/png;base64,...'")
       400, fs).
Proof.
  intros Hb Hsig. unfold fill_pdf_form, handle_data.
  cbn -[startswith]. rewrite Hb. cbn -[startswith].
  destruct Hsig as [->|(s & -> & Hs)]; cbn -[startswith]; [done|].
  by rewrite Hs.
Qed.

(** X17. A body that is not an object, and a signature that is not a
    string, are answered with status 500 through the catch-all of lines
    365-371, and no file is written. *)
Theorem wrong_type_500 d rest fs :
  ((∃ v, d !! "body" = Some v ∧ ∀ form, v ≠ JDict form) ∨
   (∃ form v, d !! "body" = Some (JDict form) ∧
              form !! "signatureImageBase64" = Some v ∧ is_str v = false)) →
  fill_pdf_form rt (post (JList (JDict d :: rest))) fs
  = (Response (BodyText "An unexpected error occurred") 500, fs).
Proof.
  unfold fill_pdf_form, handle_data. cbn.
  intros [(v & -> & Hv)|(form & v & -> & Hsig & Hstr)]; cbn.
  - destruct v; try done. by destruct (Hv d0).
  - rewrite Hsig. cbn. by destruct v.
Qed.

(** X18. A first element that is a string is answered with 400 when the
    word body does not occur in it and with 500 when it does, since line
    214 then tests for a substring. *)
Theorem string_element_status (s : string) rest fs :
  fill_pdf_form rt (post (JList (JStr s :: rest))) fs
  = if str_contains "body" s
    then (Response (BodyText "An unexpected error occurred") 500, fs)
    else (Response (BodyText "Invalid input format: Missing 'body' key.")
            400, fs).
Proof.
  unfold fill_pdf_form, handle_data. cbn [method get_json post negb].
  change (String.eqb "POST" "POST") with true. cbn [negb py_in_body].
  by destruct (str_contains "body" s).
Qed.

(** X19. When the template file is missing, or its form fields cannot be
    read, or it has none, a request with a well-formed signature is
    answered with status 500 before any scratch file is written. *)
Theorem template_failure_500 d form payload rest fs :
  d !! "body" = Some (JDict form) →
  form !! "signatureImageBase64"
    = Some (JStr ("data:image/png;base64," +:+ payload)) →
  (template rt = None ∨
   ∃ template_pdf, template rt = Some template_pdf ∧
     (get_form_fields rt template_pdf = None ∨
      get_form_fields rt template_pdf = Some ∅)) →
  ∃ message,
    fill_pdf_form rt (post (JList (JDict d :: rest))) fs
    = (Response (BodyText message) 500, fs).
Proof.
  intros Hb Hsig Ht.
  unfold fill_pdf_form, handle_data. cbn. rewrite Hb. cbn. rewrite Hsig. cbn.
  unfold process.
  destruct Ht as [->|(tpl & -> & [->| ->])]; eauto.
Qed.
End Rejections.

(** ** The order of the input *)

(** X20. The text loop run over the items of the body in the order the
    client sent them gives the same result as the loop over the finite map
    built from them: the order of the keys in the JSON object is
    immaterial. *)
Theorem text_loop_insertion_order (rt : Runtime)
    (items : list (string * json)) :
  NoDup items.*1 →
  text_loop rt items ∅
  = text_loop rt (map_to_list (list_to_map items : gmap string json)) ∅.
Proof.
  intros Hnd. apply text_loop_perm.
  - apply NoDup_fst_map_to_list.
  - by apply map_to_list_to_map.
Qed.

(** ** The further theorems at concrete inputs *)

Lemma absent_field_unset_witness :
  form_example !! "city" = None ∧
  "city" ≠ "signatureDate" ∧
  FIELD_MAPPING !! "city" = Some (Text "Text_4") ∧
  "Text_4" ∈ targets_of (Text "Text_4") ∧
  ∃ m, rendered_field_map rt_example form_example = Some m ∧
       m !! "Text_4" = None.
Proof.
  assert (Hv : form_example !! "city" = None) by (vm_compute; reflexivity).
  assert (Hd : "city" ≠ "signatureDate") by by_eval.
  assert (Hk : FIELD_MAPPING !! "city" = Some (Text "Text_4"))
    by (vm_compute; reflexivity).
  assert (Ht : "Text_4" ∈ targets_of (Text "Text_4"))
    by apply list_elem_of_here.
  repeat (split; [assumption|]).
  apply (absent_field_unset rt_example form_example "city" _ "Text_4"
           Hv Hd Hk Ht).
Defined.

Lemma process_ignores_after_comma_witness :
  has_comma "iVBORw0K" = false ∧
  process rt_example form_example
    ("data:image/png;base64," +:+ "iVBORw0K" +:+ "," +:+ "AAAA")
    (JStr "abc123") (JStr "2026-11-04") ∅
  = process rt_example form_example
      ("data:image/png;base64," +:+ "iVBORw0K")
      (JStr "abc123") (JStr "2026-11-04") ∅.
Proof.
  assert (Hc : has_comma "iVBORw0K" = false) by reflexivity.
  split; [exact Hc|].
  apply (process_ignores_after_comma rt_example "iVBORw0K" "AAAA" _ _ _ _ Hc).
Defined.

Lemma add_signature_to_pdf_result_witness :
  ∃ fs', add_signature_to_pdf rt_example fs_two_pages
           "in.pdf" "out.pdf" "sig.png" = Some fs' ∧
    ∃ output_pdf height,
      fs' = <["out.pdf" := FilePdf output_pdf]> fs_two_pages ∧
      pages output_pdf
      = [MergedPage (SourcePage 0) (CanvasPage 50 50 350 height);
         SourcePage 1].
Proof.
  assert (Hs : is_Some (add_signature_to_pdf rt_example fs_two_pages
                          "in.pdf" "out.pdf" "sig.png"))
    by (vm_compute; eauto).
  destruct Hs as [fs' Hfs']. exists fs'. split; [exact Hfs'|].
  destruct (add_signature_to_pdf_result rt_example _ _ _ _ _ Hfs')
    as (template_pdf & output_pdf & height & Hin & Hout & Hpages).
  exists output_pdf, height. split; [exact Hout|].
  assert (Ht : fs_two_pages !! "in.pdf"
               = Some (FilePdf (Document [SourcePage 0; SourcePage 1] ∅)))
    by (vm_compute; reflexivity).
  rewrite Ht in Hin. injection Hin as <-. exact Hpages.
Defined.

Lemma client_error_writes_nothing_witness :
  (status (fill_pdf_form rt_example get_request fs_stale).1 = 400 ∨
   status (fill_pdf_form rt_example get_request fs_stale).1 = 405)%Z ∧
  (fill_pdf_form rt_example get_request fs_stale).2 = fs_stale.
Proof.
  assert (H : (status (fill_pdf_form rt_example get_request fs_stale).1 = 400 ∨
               status (fill_pdf_form rt_example get_request fs_stale).1 = 405)%Z)
    by (right; vm_compute; reflexivity).
  split; [exact H|].
  apply (client_error_writes_nothing rt_example get_request fs_stale H).
Defined.

Lemma handler_touches_only_scratch_witness :
  ("/tmp/other.txt" ∉ temp_files rt_example) ∧
  (fill_pdf_form rt_example (post (wrap form_not_png)) fs_stale).2
    !! "/tmp/other.txt" = fs_stale !! "/tmp/other.txt".
Proof.
  assert (Hp : "/tmp/other.txt" ∉ temp_files rt_example) by by_eval.
  split; [exact Hp|].
  apply (handler_touches_only_scratch rt_example _ fs_stale _ Hp).
Defined.

Lemma success_leaves_no_scratch_witness :
  status (fill_pdf_form rt_example (post (wrap form_example)) fs_stale).1
    = 200%Z ∧
  (fill_pdf_form rt_example (post (wrap form_example)) fs_stale).2
    !! "/tmp/signature.png" = None.
Proof.
  assert (Hs : status (fill_pdf_form rt_example (post (wrap form_example))
                         fs_stale).1 = 200%Z) by (vm_compute; reflexivity).
  split; [exact Hs|].
  rewrite (success_leaves_no_scratch rt_example _ fs_stale
             "/tmp/signature.png" Hs).
  apply decide_True. by_eval.
Defined.

Lemma healthy_example : healthy rt_example.
Proof.
  exists (Document [SourcePage 0; SourcePage 1] {[ "Text_1" := JStr "" ]}),
         {[ "Text_1" := JStr "" ]}.
  split; [reflexivity|]. split; [reflexivity|]. split; [by_eval|].
  split; [intros d m; cbn; eauto|]. split; reflexivity.
Qed.

Lemma healthy_request_200_witness :
  healthy rt_example ∧
  b64decode rt_example (first_segment "iVBORw0K")
    = Some [Byte.x89; Byte.x50; Byte.x4e; Byte.x47; Byte.x0d; Byte.x0a] ∧
  image_open rt_example
    [Byte.x89; Byte.x50; Byte.x4e; Byte.x47; Byte.x0d; Byte.x0a]
    = Some (400, 100)%Z ∧
  of_int rt_example 400 ≠ Qc_of_Z 0 ∧
  ∃ pdf, (fill_pdf_form rt_example (post (wrap form_example)) ∅).1
         = Response (BodyPdf pdf) 200.
Proof.
  assert (Hd : b64decode rt_example (first_segment "iVBORw0K")
               = Some [Byte.x89; Byte.x50; Byte.x4e; Byte.x47; Byte.x0d;
                       Byte.x0a]) by (vm_compute; reflexivity).
  assert (Hi : image_open rt_example
                 [Byte.x89; Byte.x50; Byte.x4e; Byte.x47; Byte.x0d; Byte.x0a]
               = Some (400, 100)%Z) by reflexivity.
  assert (Hw : of_int rt_example 400 ≠ Qc_of_Z 0).
  { rewrite (exact_example 400). intros E%Z2Qc_inj. lia. }
  split; [apply healthy_example|]. repeat (split; [assumption|]).
  apply (healthy_request_200 rt_example
           {[ "body" := JDict form_example ]} form_example "iVBORw0K" []
           [Byte.x89; Byte.x50; Byte.x4e; Byte.x47; Byte.x0d; Byte.x0a]
           400 100 ∅ healthy_example); try assumption;
    vm_compute; reflexivity.
Defined.

Lemma missing_signature_400_witness :
  form_no_signature !! "signatureImageBase64" = None ∧
  fill_pdf_form rt_example (post (wrap form_no_signature)) ∅
  = (Response
       (BodyText "Invalid signature format: Expected 'data:image/png;base64,...'")
       400, ∅).
Proof.
  assert (Hs : form_no_signature !! "signatureImageBase64" = None)
    by (vm_compute; reflexivity).
  split; [exact Hs|].
  apply (missing_signature_400 rt_example
           {[ "body" := JDict form_no_signature ]} form_no_signature [] ∅);
    [vm_compute; reflexivity|by left].
Defined.

Lemma wrong_type_500_witness :
  form_numeric_signature !! "signatureImageBase64" = Some (JInt 7) ∧
  is_str (JInt 7) = false ∧
  fill_pdf_form rt_example (post (wrap form_numeric_signature)) ∅
  = (Response (BodyText "An unexpected error occurred") 500, ∅).
Proof.
  assert (Hs : form_numeric_signature !! "signatureImageBase64"
               = Some (JInt 7)) by (vm_compute; reflexivity).
  split; [exact Hs|]. split; [reflexivity|].
  apply (wrong_type_500 rt_example
           {[ "body" := JDict form_numeric_signature ]} [] ∅).
  right. exists form_numeric_signature, (JInt 7).
  split; [vm_compute; reflexivity|]. split; [exact Hs|reflexivity].
Defined.

Lemma template_failure_500_witness :
  template rt_no_template = None ∧
  ∃ message,
    fill_pdf_form rt_no_template (post (wrap form_example)) ∅
    = (Response (BodyText message) 500, ∅).
Proof.
  split; [reflexivity|].
  apply (template_failure_500 rt_no_template
           {[ "body" := JDict form_example ]} form_example "iVBORw0K" [] ∅);
    [vm_compute; reflexivity..|by left].
Defined.

Lemma text_loop_insertion_order_witness :
  NoDup items_in_order.*1 ∧
  text_loop rt_example items_in_order ∅
  = text_loop rt_example
      (map_to_list (list_to_map items_in_order : gmap string json)) ∅.
Proof.
  assert (Hnd : NoDup items_in_order.*1) by by_eval.
  split; [exact Hnd|].
  apply (text_loop_insertion_order rt_example items_in_order Hnd).
Defined.

(** ** Case of the checkbox words, and the empty body *)

Lemma lower_ascii_idempotent (c : ascii) :
  lower_ascii (lower_ascii c) = lower_ascii c.
Proof.
  destruct c as [[] [] [] [] [] [] [] []]; vm_compute; reflexivity.
Qed.

Lemma lower_idempotent (s : string) : lower (lower s) = lower s.
Proof.
  induction s as [|c r IH]; [done|]. cbn [lower].
  by rewrite lower_ascii_idempotent, IH.
Qed.

(** X21. The test of a checkbox string ignores the case of its letters:
    a string counts as yes exactly when its lower-cased form does, so
    "YES", "Own" and "tRuE" are yes like "yes", "own" and "true". *)
Theorem is_yes_ignores_case (rt : Runtime) (s : string) :
  is_yes rt (JStr (lower s)) = is_yes rt (JStr s) ∧
  is_yes rt (JStr "YES") = true ∧ is_yes rt (JStr "Own") = true ∧
  is_yes rt (JStr "tRuE") = true ∧ is_yes rt (JStr "no") = false ∧
  is_yes rt (JStr "") = false.
Proof.
  split; [|by vm_compute].
  unfold is_yes. cbn [py_str]. by rewrite lower_idempotent.
Qed.

(** X22. For a body without any field the rendered field map holds the
    signature date alone, set to the current date. *)
Theorem rendered_of_empty_body (rt : Runtime) :
  rendered_field_map rt ∅
  = Some {[ "Text_39" := JStr (strftime_ymd (now rt)) ]}.
Proof.
  unfold rendered_field_map, field_mapper, resolve_date.
  rewrite map_to_list_empty, lookup_empty. cbn [text_loop default].
  assert (Hc : ∀ cbs acc, checkbox_loop rt ∅ cbs acc = Some acc).
  { induction cbs as [|cb cbs IH]; intros acc; [done|].
    cbn [checkbox_loop]. unfold checkbox_step.
    rewrite lookup_empty. apply IH. }
  rewrite Hc, date_step_eq. by rewrite insert_empty.
Qed.
